(** * UCF101 data producer: a shallow embedding of [datasets/ucf101/producer.py]

    The development follows the Python module top to bottom: the exceptions
    the code can raise and an error monad for them, the Python built-ins the
    module relies on (indexing, slicing, [range], [sorted], [set],
    [list.index], [random.sample]), the [DataSet] class with its methods, the
    generator returned by [frame_generator], and finally the properties of
    the catalog and of the batch generator. *)

From Stdlib Require Import ZArith QArith String Ascii Sorted Permutation.
From stdpp Require Import base tactics option list numbers sorting gmap strings.

Local Open Scope Z_scope.

(** ** Exceptions and the error monad *)

Inductive PyError : Type :=
  | AssertionError
  | ZeroDivisionError
  | ValueError
  | IndexError
  | NameError
  | StopIteration.

Inductive result (A : Type) : Type :=
  | Ok (a : A)
  | Err (e : PyError).
Arguments Ok {A} a.
Arguments Err {A} e.

#[global] Instance result_ret : MRet result := fun _ a => Ok a.
#[global] Instance result_bind : MBind result := fun _ _ f m =>
  match m with
  | Ok a => f a
  | Err e => Err e
  end.
#[global] Instance result_fmap : FMap result := fun _ _ f m =>
  match m with
  | Ok a => Ok (f a)
  | Err e => Err e
  end.

Definition is_Ok {A} (m : result A) : Prop := exists a, m = Ok a.
Definition is_Err {A} (m : result A) : Prop := exists e, m = Err e.

(** [assert c] *)
Definition py_assert (c : bool) : result unit :=
  if c then Ok tt else Err AssertionError.

(** [[f(x) for x in l]] and [list(filter(f, l))] where [f] may raise: the
    elements are visited left to right and the first exception escapes. *)
Fixpoint comprehension {A B} (f : A -> result B) (l : list A) : result (list B) :=
  match l with
  | [] => Ok []
  | x :: l' => y ← f x; ys ← comprehension f l'; Ok (y :: ys)
  end.

Fixpoint py_filter {A} (f : A -> result bool) (l : list A) : result (list A) :=
  match l with
  | [] => Ok []
  | x :: l' =>
      b ← f x; ys ← py_filter f l'; Ok (if b : bool then x :: ys else ys)
  end.

(** ** Python built-ins on integers and lists *)

Definition len {A} (l : list A) : Z := Z.of_nat (length l).

(** [a // b] on ints: floor division, [ZeroDivisionError] on a zero divisor. *)
Definition py_floordiv (a b : Z) : result Z :=
  if b =? 0 then Err ZeroDivisionError else Ok (a / b).

(** [l[i]]: a negative index counts from the end, anything outside
    [-len(l) .. len(l)-1] raises [IndexError]. *)
Definition py_getitem {A} (l : list A) (i : Z) : result A :=
  let j := if i <? 0 then i + len l else i in
  if j <? 0 then Err IndexError
  else match l !! Z.to_nat j with
       | Some x => Ok x
       | None => Err IndexError
       end.

(** [l[:n]]: the first [n] elements, or all but the last [-n] when [n] is
    negative; never raises. *)
Definition py_slice_to {A} (l : list A) (n : Z) : list A :=
  if n <? 0 then take (Z.to_nat (len l + n)) l else take (Z.to_nat n) l.

(** [len(range(start, stop, step))] as CPython computes it. *)
Definition range_length (start stop step : Z) : Z :=
  if 0 <? step then
    (if start <? stop then (stop - start - 1) / step + 1 else 0)
  else
    (if stop <? start then (start - stop - 1) / (- step) + 1 else 0).

(** [list(range(start, stop, step))]; a zero step raises [ValueError]. *)
Definition py_range (start stop step : Z) : result (list Z) :=
  if step =? 0 then Err ValueError
  else Ok ((fun i : nat => start + Z.of_nat i * step) <$>
             seq 0 (Z.to_nat (range_length start stop step))).

(** ** [DataSet.rescale_list] *)

(** The list called [output] in the source, before the final slice. *)
Definition rescale_candidates {A} (input_list : list A) (size : Z) : result (list A) :=
  _ ← py_assert (size <=? len input_list);
  skip ← py_floordiv (len input_list) size;
  idxs ← py_range 0 (len input_list) skip;
  comprehension (py_getitem input_list) idxs.

Definition rescale_list {A} (input_list : list A) (size : Z) : result (list A) :=
  output ← rescale_candidates input_list size;
  Ok (py_slice_to output size).

(** ** More built-ins: [sorted], [list.index], dictionaries, [os.path.join] *)

(** [sorted] is a stable sort. [le x y] tells that [x] may stand before [y];
    an element is put in front of the first element it may stand before, so
    elements that compare equal keep the order they had in the input. *)
Section PySorted.
Context {A : Type} (le : A -> A -> bool).

Fixpoint insert_sorted (x : A) (l : list A) : list A :=
  match l with
  | [] => [x]
  | y :: l' => if le x y then x :: y :: l' else y :: insert_sorted x l'
  end.

Definition py_sorted (l : list A) : list A := foldr insert_sorted [] l.

(** Two elements tie when each may stand before the other. *)
Definition ties (a b : A) : bool := le a b && le b a.
End PySorted.

(** [l.index(x)]: position of the first occurrence, [ValueError] if none. *)
Fixpoint list_index_from `{EqDecision A} (i : Z) (l : list A) (x : A) : result Z :=
  match l with
  | [] => Err ValueError
  | y :: l' => if decide (y = x) then Ok i else list_index_from (i + 1) l' x
  end.

Definition list_index `{EqDecision A} (l : list A) (x : A) : result Z :=
  list_index_from 0 l x.

(** A [dict] keeps its keys in insertion order; assigning to a key that is
    present replaces the value and leaves the key where it is. *)
Fixpoint dict_set `{EqDecision K} {V} (d : list (K * V)) (k : K) (v : V) : list (K * V) :=
  match d with
  | [] => [(k, v)]
  | (k', v') :: d' =>
      if decide (k' = k) then (k', v) :: d' else (k', v') :: dict_set d' k v
  end.

Definition starts_with_slash (s : string) : bool :=
  match s with
  | String c _ => bool_decide (c = "/"%char)
  | EmptyString => false
  end.

Fixpoint ends_with_slash (s : string) : bool :=
  match s with
  | EmptyString => false
  | String c EmptyString => bool_decide (c = "/"%char)
  | String _ s' => ends_with_slash s'
  end.

(** [os.path.join(a, *p)] of [posixpath]. *)
Definition os_path_join (a : string) (p : list string) : string :=
  foldl (fun path b =>
           if starts_with_slash b then b
           else if bool_decide (path = EmptyString) || ends_with_slash path
                then String.append path b
                else String.append path (String.append "/" b))
        a p.

(** ** The [DataSet] class *)

(** A row of [data_file.csv] as [csv.reader] yields it: a list of strings,
    of which the code reads [x[0]] (train or test), [x[1]] (class name),
    [x[2]] (clip name) and [x[3]] (number of frames). *)
Definition Row : Type := list string.

Record DataSet : Type := mkDataSet {
  seq_length : Z;
  class_limit : option Z;   (* [None] is Python's [None] *)
  max_frames : Z;
  data : list Row;
  classes : list string;
  image_shape : list Z
}.

Definition set_classes (self : DataSet) (v : list string) : DataSet :=
  mkDataSet (seq_length self) (class_limit self) (max_frames self)
            (data self) v (image_shape self).
Definition set_data (self : DataSet) (v : list Row) : DataSet :=
  mkDataSet (seq_length self) (class_limit self) (max_frames self)
            v (classes self) (image_shape self).
Definition set_image_shape (self : DataSet) (v : list Z) : DataSet :=
  mkDataSet (seq_length self) (class_limit self) (max_frames self)
            (data self) (classes self) v.

(** [get_classes]: the set of the second column, sorted, and cut to
    [class_limit] when that is not [None]. The iteration order of a Python
    set is unspecified; [elements] of a [gset] is used the same way, only
    through [sorted]. *)
Definition get_classes (self : DataSet) : result (list string) :=
  labels ← comprehension (fun item : Row => py_getitem item 1) (data self);
  let classes := py_sorted String.leb (elements (list_to_set labels : gset string)) in
  match class_limit self with
  | Some limit => Ok (py_slice_to classes limit)
  | None => Ok classes
  end.

(** Modelled from the spec: [keras.utils.to_categorical] is imported, not
    defined, by the module. The spec describes it as the one-hot primitive
    mapping an index and a cardinality to a binary vector of that length;
    here it is the vector of [num_classes] zeros with a one at position [y],
    and an index outside [0 .. num_classes-1] raises [IndexError]. The
    entries stand for the floats 0.0 and 1.0. *)
Definition to_categorical (y num_classes : Z) : result (list Z) :=
  if (y <? 0) || (num_classes <=? y) then Err IndexError
  else Ok (<[Z.to_nat y := 1]> (replicate (Z.to_nat num_classes) 0)).

Definition get_class_one_hot (self : DataSet) (class_str : string) : result (list Z) :=
  label_encoded ← list_index (classes self) class_str;
  label_hot ← to_categorical label_encoded (len (classes self));
  _ ← py_assert (bool_decide (len label_hot = len (classes self)));
  Ok label_hot.

Definition split_train_test (self : DataSet) : result (list Row * list Row) :=
  train ← py_filter (fun x : Row => s ← py_getitem x 0;
                                   Ok (bool_decide (s = "train"%string))) (data self);
  test ← py_filter (fun x : Row => s ← py_getitem x 0;
                                  Ok (bool_decide (s = "test"%string))) (data self);
  Ok (train, test).

(** [np.zeros(shape)] raises [ValueError] on a negative dimension. The arrays
    themselves are represented by the lists the loop fills them with. *)
Definition np_zeros (shape : list Z) : result unit :=
  if bool_decide (Forall (fun d => 0 <= d) shape) then Ok tt else Err ValueError.

(** Everything below depends on the world outside the module: [int] applied
    to a manifest cell, the file system seen through [glob.glob], the image
    decoder [utils.processor.process_image], and the random generator behind
    [random.sample]. They are parameters of the development. *)
Section Producer.
(** [int(s)] for a string [s]; raises [ValueError] on a malformed numeral. *)
Variable py_int : string -> result Z.
(** [glob.glob(pattern)]: the matching paths, in no particular order. *)
Variable glob : string -> list string.
(** [process_image(path, shape)] of [utils.processor]. *)
Variable Image : Type.
Variable process_image : string -> list Z -> result Image.
(** The state of the random generator and its source of raw numbers. *)
Variable Rng : Type.
Variable getrandbits : Rng -> nat * Rng.

(** *** Construction *)

Definition sample_filter (self : DataSet) (x : Row) : result bool :=
  c3 ← py_getitem x 3;
  n ← py_int c3;
  if negb (seq_length self <=? n) then Ok false
  else
    c3' ← py_getitem x 3;
    n' ← py_int c3';
    if negb (n' <=? max_frames self) then Ok false
    else
      c1 ← py_getitem x 1;
      Ok (bool_decide (c1 ∈ classes self)).

Definition clean_data (self : DataSet) : result (list Row) :=
  py_filter (sample_filter self) (data self).

(** [DataSet.__init__]. The argument [raw] is what [get_data] returns, the
    rows of the manifest file. The attributes are assigned in the order of
    the source; [classes] and [image_shape] do not exist before their
    assignment and are not read before it. *)
Definition DataSet_init (raw : list Row) (seq_length : Z) (nb_classes : option Z)
    (input_shape : list Z) : result DataSet :=
  let self := mkDataSet seq_length nb_classes 300 raw [] [] in
  cs ← get_classes self;
  let self := set_classes self cs in
  d ← clean_data self;
  let self := set_data self d in
  Ok (set_image_shape self input_shape).

(** *** Frames of a sample *)

Definition get_frames_for_sample (sample : Row) : result (list string) :=
  s0 ← py_getitem sample 0;
  s1 ← py_getitem sample 1;
  s2 ← py_getitem sample 2;
  let path := os_path_join "datasets" ["ucf101"; s0; s1; String.append s2 "*jpg"]%string in
  Ok (py_sorted String.leb (glob path)).

Definition build_image_sequence (self : DataSet) (frames : list string)
    : result (list Image) :=
  comprehension (fun x => process_image x (image_shape self)) frames.

(** *** [random.sample]

    [random.sample(population, k)] of CPython copies the population into a
    pool, and [k] times picks a position [j] below the number of elements
    still in play, takes [pool[j]] and moves the last element in play to
    position [j]. (For large populations CPython draws positions into a set
    until it has [k] different ones, which selects positions in the same
    way.) *)
Definition randbelow (g : Rng) (n : nat) : nat * Rng :=
  let '(r, g') := getrandbits g in ((r mod n)%nat, g').

Fixpoint sample_pool {A} (k m : nat) (pool : list A) (g : Rng)
    : result (list A) * Rng :=
  match k with
  | O => (Ok [], g)
  | S k' =>
      let '(j, g1) := randbelow g m in
      match pool !! j, pool !! (m - 1)%nat with
      | Some x, Some y =>
          let '(r, g2) := sample_pool k' (m - 1)%nat (<[j := y]> pool) g1 in
          (cons x <$> r, g2)
      | _, _ => (Err IndexError, g1)
      end
  end.

Definition random_sample {A} (population : list A) (k : Z) (g : Rng)
    : result (list A) * Rng :=
  if (k <? 0) || (len population <? k) then (Err ValueError, g)
  else sample_pool (Z.to_nat k) (length population) population g.

(** *** The batch generator *)

(** A batch: [x] as the list of its [batch_size] image sequences and [y] as
    the list of its [batch_size] label vectors. *)
Definition Batch : Type := (list (list Image) * list (list Z))%type.

(** The body of the [for] loop for one sample: the values assigned to
    [x[i]] and [y[i]]. The shape check numpy makes on these assignments is
    not represented. *)
Definition make_sample (self : DataSet) (sample : Row)
    : result (list Image * list Z) :=
  frames ← get_frames_for_sample sample;
  sampled_frames ← rescale_list frames (seq_length self);
  sequence ← build_image_sequence self sampled_frames;
  c ← py_getitem sample 1;
  y ← get_class_one_hot self c;
  Ok (sequence, y).

(** One turn of the [while 1] loop, up to its [yield]. *)
Definition next_batch (self : DataSet) (batch_size : Z) (data : list Row) (g : Rng)
    : result Batch * Rng :=
  match (_ ← np_zeros (batch_size :: seq_length self :: image_shape self);
         np_zeros [batch_size; len (classes self)]) with
  | Err e => (Err e, g)
  | Ok _ =>
      let '(samples, g') := random_sample data batch_size g in
      (samples ← samples;
       rows ← comprehension (make_sample self) samples;
       Ok (rows.*1, rows.*2), g')
  end.

(** The two statements before the loop: the partition the generator draws
    from. *)
Definition select_data (self : DataSet) (train_test : string) : result (list Row) :=
  '(train, test) ← split_train_test self;
  Ok (if bool_decide (train_test = "train"%string) then train else test).

(** A Python generator object: created but not started (calling a generator
    function runs none of its body), suspended at the [yield] with its local
    variable [data], or finished, which is where an escaping exception
    leaves it. The decorator [threadsafe_generator] wraps it in an iterator
    whose [__next__] takes a lock and calls [next]; taken one call at a
    time, that is [gen_next]. The [print] before the loop is left out. *)
Inductive Generator : Type :=
  | GenCreated (self : DataSet) (batch_size : Z) (train_test : string)
  | GenRunning (self : DataSet) (batch_size : Z) (data : list Row)
  | GenDone.

Definition frame_generator (self : DataSet) (batch_size : Z) (train_test : string)
    : result Generator :=
  Ok (GenCreated self batch_size train_test).

Definition run_iteration (self : DataSet) (batch_size : Z) (data : list Row) (g : Rng)
    : result Batch * Generator * Rng :=
  let '(r, g') := next_batch self batch_size data g in
  (r, match r with Ok _ => GenRunning self batch_size data | Err _ => GenDone end, g').

Definition gen_next (gen : Generator) (g : Rng) : result Batch * Generator * Rng :=
  match gen with
  | GenCreated self batch_size train_test =>
      match select_data self train_test with
      | Ok data => run_iteration self batch_size data g
      | Err e => (Err e, GenDone, g)
      end
  | GenRunning self batch_size data => run_iteration self batch_size data g
  | GenDone => (Err StopIteration, GenDone, g)
  end.
End Producer.

(** ** [DataSet.print_class_from_prediction]

    The static method has no catalog argument: it reads the vocabulary from
    the name [data] of the module's global namespace, [data.classes]. The
    argument [data] below is what that name is bound to when the function
    is called, [None] when it is not bound, in which case evaluating
    [data.classes] raises [NameError] before anything else happens.
    [producer.py] itself binds no such name ([module_data]). The scores are
    numpy floats; they are represented by the rational numbers they denote
    (which leaves out NaN), compared with [Qle_bool] and [Qeq_bool]. The
    result is the list of the (label, score) pairs the function prints, in
    order. *)

Fixpoint build_label_predictions (i : Z) (labels : list string) (predictions : list Q)
    (d : list (string * Q)) : result (list (string * Q)) :=
  match labels with
  | [] => Ok d
  | label :: labels' =>
      p ← py_getitem predictions i;
      build_label_predictions (i + 1) labels' predictions (dict_set d label p)
  end.

(** [key=operator.itemgetter(1), reverse=True] *)
Definition by_score_desc (a b : string * Q) : bool := Qle_bool (snd b) (snd a).

Fixpoint print_loop (i nb_to_return : Z) (l : list (string * Q)) : list (string * Q) :=
  match l with
  | [] => []
  | class_prediction :: l' =>
      if (nb_to_return - 1 <? i) || Qeq_bool (snd class_prediction) 0 then []
      else class_prediction :: print_loop (i + 1) nb_to_return l'
  end.

Definition print_class_from_prediction (data : option DataSet) (predictions : list Q)
    (nb_to_return : Z) : result (list (string * Q)) :=
  match data with
  | None => Err NameError
  | Some data =>
      label_predictions ← build_label_predictions 0 (classes data) predictions [];
      let sorted_lps := py_sorted by_score_desc label_predictions in
      Ok (print_loop 0 nb_to_return sorted_lps)
  end.

(** The binding of the global name [data] in [producer.py] as it is: none. *)
Definition module_data : option DataSet := None.

Definition default_nb_to_return : Z := 5.

(** ** A concrete world for the examples

    A reading of [int] on plain decimal numerals, a file system holding the
    frames of one clip, image decoding that returns the path, and a linear
    congruential generator. *)

Definition digit_of (c : ascii) : option Z :=
  let n := Z.of_N (N_of_ascii c) in
  if (48 <=? n) && (n <=? 57) then Some (n - 48) else None.

Fixpoint decimal_from (acc : Z) (s : string) : result Z :=
  match s with
  | EmptyString => Ok acc
  | String c s' =>
      match digit_of c with
      | Some d => decimal_from (10 * acc + d) s'
      | None => Err ValueError
      end
  end.

Definition decimal_int (s : string) : result Z :=
  match s with
  | EmptyString => Err ValueError
  | _ => decimal_from 0 s
  end.

Definition demo_glob (pattern : string) : list string :=
  if bool_decide (pattern = "datasets/ucf101/train/Archery/v_Archery_g01_c01*jpg"%string)
  then ["v_Archery_g01_c01-0003.jpg"; "v_Archery_g01_c01-0001.jpg";
        "v_Archery_g01_c01-0002.jpg"; "v_Archery_g01_c01-0004.jpg"]%string
  else if bool_decide (pattern = "datasets/ucf101/train/Bowling/v_Bowling_g02_c03*jpg"%string)
  then ["v_Bowling_g02_c03-0002.jpg"; "v_Bowling_g02_c03-0001.jpg";
        "v_Bowling_g02_c03-0003.jpg"]%string
  else [].

Definition demo_image (path : string) (shape : list Z) : result string := Ok path.

Definition lcg (g : nat) : nat * nat :=
  (g, ((g * 5 + 3) mod 64)%nat).

Definition demo_raw : list Row :=
  [ ["train"; "Archery"; "v_Archery_g01_c01"; "4"];
    ["train"; "Bowling"; "v_Bowling_g02_c03"; "3"];
    ["test"; "Archery"; "v_Archery_g03_c02"; "2"];
    ["test"; "Diving"; "v_Diving_g01_c01"; "301"];
    ["test"; "Bowling"; "v_Bowling_g05_c01"; "7"] ]%string.

(** The catalog built from the example manifest with [seq_length] 3 and no
    class limit, and a catalog whose samples are all test samples. *)
Definition demo_ds : DataSet :=
  mkDataSet 3 None 300
    [ ["train"; "Archery"; "v_Archery_g01_c01"; "4"];
      ["train"; "Bowling"; "v_Bowling_g02_c03"; "3"];
      ["test"; "Bowling"; "v_Bowling_g05_c01"; "7"] ]%string
    ["Archery"; "Bowling"; "Diving"]%string [2; 2].

Definition test_only_ds : DataSet :=
  mkDataSet 3 None 300
    [ ["test"; "Archery"; "v_Archery_g03_c02"; "5"] ]%string
    ["Archery"]%string [2; 2].

(** ** Vocabulary for the statements

    The class label and the frame count of a manifest row, and the filter
    predicate of the catalog written as a pure function of a row whose cells
    exist and whose frame count reads as an integer. *)

Definition class_label (x : Row) : option string := x !! 1%nat.

Definition frame_count (py_int : string -> result Z) (x : Row) : option Z :=
  match x !! 3%nat with
  | Some c =>
      match py_int c with
      | Ok n => Some n
      | Err _ => None
      end
  | None => None
  end.

Definition well_formed (py_int : string -> result Z) (x : Row) : Prop :=
  is_Some (frame_count py_int x).

Definition passes (py_int : string -> result Z) (self : DataSet) (x : Row) : bool :=
  match frame_count py_int x, class_label x with
  | Some n, Some c =>
      (seq_length self <=? n) && (n <=? max_frames self)
      && bool_decide (c ∈ classes self)
  | _, _ => false
  end.

(** The invariant of the pool of [random.sample]: its first [m] entries are
    pairwise different. *)
Definition pool_distinct {A} (m : nat) (pool : list A) : Prop :=
  (m <= length pool)%nat /\
  forall (i i' : nat) (x : A), (i < m)%nat -> (i' < m)%nat ->
    pool !! i = Some x -> pool !! i' = Some x -> i = i'.

(** Lexicographic order of strings by character code, strict. *)
Definition str_lt (a b : string) : Prop := String.compare a b = Lt.

(** The samples of the catalog whose first cell is "test". *)
Definition test_partition (self : DataSet) : list Row :=
  List.filter (fun x : Row => bool_decide (x !! 0%nat = Some "test"%string)) (data self).

(** A catalog that has nothing but a vocabulary, for the ranking examples. *)
Definition vocabulary_ds (classes : list string) : DataSet :=
  mkDataSet 1 None 300 [] classes [].

(** A file system in which every clip has three frames. *)
Definition three_frames_glob (pattern : string) : list string :=
  ["frame-0002.jpg"; "frame-0001.jpg"; "frame-0003.jpg"]%string.

(** Lexicographic order of strings, non-strict: the order [sorted] uses. *)
Definition str_le (a b : string) : Prop := String.leb a b = true.

(** * Properties *)

(** ** The error monad and the list primitives *)

Lemma bind_Ok {A B} (m : result A) (f : A -> result B) (b : B) :
  m ≫= f = Ok b <-> exists a, m = Ok a /\ f a = Ok b.
Proof.
  destruct m as [a|e]; simpl; split.
  - intros H. by exists a.
  - by intros (a' & [= ->] & H).
  - discriminate.
  - by intros (a' & [=] & _).
Qed.

Ltac inv_bind H :=
  repeat match type of H with
  | _ ≫= _ = Ok _ =>
      let a := fresh "a" in let Ha := fresh "Ha" in
      apply bind_Ok in H; destruct H as (a & Ha & H)
  | Ok _ = Ok _ => injection H as H
  end.

Lemma comprehension_Forall2 {A B} (f : A -> result B) l ys :
  comprehension f l = Ok ys <-> Forall2 (fun x y => f x = Ok y) l ys.
Proof.
  revert ys. induction l as [|x l IH]; intros ys; simpl.
  - split; [intros [= <-]; constructor | by inversion 1].
  - split.
    + intros H. inv_bind H. subst ys. constructor; [done | by apply IH].
    + inversion 1 as [|? y ? ys' Hx Hl]; subst.
      rewrite Hx. simpl. apply IH in Hl. by rewrite Hl.
Qed.

Lemma comprehension_total {A B} (f : A -> result B) l :
  (forall x, x ∈ l -> is_Ok (f x)) -> is_Ok (comprehension f l).
Proof.
  induction l as [|x l IH]; intros H; simpl.
  - by eexists.
  - destruct (H x) as [y Hy]; [left |]. rewrite Hy. simpl.
    destruct IH as [ys Hys]; [intros; apply H; by right |].
    rewrite Hys. by eexists.
Qed.

Lemma comprehension_length {A B} (f : A -> result B) l ys :
  comprehension f l = Ok ys -> length ys = length l.
Proof.
  intros H%comprehension_Forall2. symmetry. by eapply Forall2_length.
Qed.

Lemma py_filter_pure {A} (f : A -> result bool) (p : A -> bool) l :
  (forall x, x ∈ l -> f x = Ok (p x)) -> py_filter f l = Ok (List.filter p l).
Proof.
  induction l as [|x l IH]; intros H; simpl; [done |].
  rewrite (H x) by left. simpl. rewrite IH by (intros; apply H; by right).
  simpl. by destruct (p x).
Qed.

Lemma py_getitem_nonneg {A} (l : list A) (i : Z) :
  0 <= i -> py_getitem l i = match l !! Z.to_nat i with
                            | Some x => Ok x
                            | None => Err IndexError
                            end.
Proof.
  intros Hi. unfold py_getitem.
  destruct (Z.ltb_spec i 0); [lia |]. by destruct (Z.ltb_spec i 0); [lia |].
Qed.

Lemma py_getitem_nat {A} (l : list A) (n : nat) (x : A) :
  py_getitem l (Z.of_nat n) = Ok x <-> l !! n = Some x.
Proof.
  rewrite py_getitem_nonneg by lia. rewrite Nat2Z.id.
  destruct (l !! n); split; intros [=]; by subst.
Qed.

Lemma len_nonneg {A} (l : list A) : 0 <= len l.
Proof. unfold len. lia. Qed.

Lemma py_slice_to_nonneg {A} (l : list A) (n : Z) :
  0 <= n -> py_slice_to l n = take (Z.to_nat n) l.
Proof. intros Hn. unfold py_slice_to. by destruct (Z.ltb_spec n 0); [lia |]. Qed.

Lemma py_slice_to_prefix {A} (l : list A) (n : Z) : py_slice_to l n `prefix_of` l.
Proof. unfold py_slice_to. destruct (n <? 0); apply prefix_take. Qed.

(** ** Rescale *)

Lemma py_range_lookup (stop step : Z) :
  0 < step -> 0 < stop ->
  exists idxs, py_range 0 stop step = Ok idxs /\
    Z.of_nat (length idxs) = (stop - 1) / step + 1 /\
    forall k : nat, (k < length idxs)%nat -> idxs !! k = Some (Z.of_nat k * step).
Proof.
  intros Hstep Hstop. unfold py_range, range_length.
  destruct (Z.eqb_spec step 0); [lia |].
  destruct (Z.ltb_spec 0 step); [| lia].
  destruct (Z.ltb_spec 0 stop); [| lia].
  eexists. split; [done |].
  assert (0 <= (stop - 1) / step) by (apply Z.div_pos; lia).
  rewrite length_fmap, length_seq. split.
  - replace (stop - 0 - 1) with (stop - 1) by lia. lia.
  - intros j Hj. rewrite list_lookup_fmap, lookup_seq_lt by done. done.
Qed.

Lemma rescale_candidates_spec {A} (l : list A) (size : Z) :
  0 < size -> size <= len l ->
  exists cands, rescale_candidates l size = Ok cands /\
    size <= len cands /\
    forall k : nat, cands !! k = l !! (k * Z.to_nat (len l / size))%nat.
Proof.
  intros Hsize Hle. unfold rescale_candidates.
  destruct (Z.leb_spec size (len l)); [simpl | lia].
  unfold py_floordiv. destruct (Z.eqb_spec size 0); [lia | simpl].
  set (skip := len l / size).
  assert (Hskip : 0 < skip) by (apply Z.div_str_pos; lia).
  assert (Hmul : size * skip <= len l) by (apply Z.mul_div_le; lia).
  destruct (py_range_lookup (len l) skip) as (idxs & -> & Hlen & Hidx); [lia.. |].
  simpl.
  assert (Hq : ((len l - 1) / skip) * skip <= len l - 1)
    by (rewrite Z.mul_comm; apply Z.mul_div_le; lia).
  assert (Hq' : len l - 1 < ((len l - 1) / skip + 1) * skip).
  { pose proof (Z.mul_succ_div_gt (len l - 1) skip Hskip). lia. }
  destruct (comprehension_total (py_getitem l) idxs) as [cands Hc].
  { intros i [k Hk]%list_elem_of_lookup.
    pose proof (lookup_lt_Some _ _ _ Hk) as Hlt.
    rewrite Hidx in Hk by done. injection Hk as <-.
    rewrite py_getitem_nonneg by lia.
    destruct (l !! Z.to_nat (Z.of_nat k * skip)) eqn:E; [by eexists |].
    apply lookup_ge_None in E. unfold len in *. nia. }
  exists cands. split; [done |].
  pose proof (comprehension_length _ _ _ Hc) as Hlc.
  apply comprehension_Forall2 in Hc.
  split.
  - unfold len at 1. rewrite Hlc, Hlen.
    assert (size - 1 <= (len l - 1) / skip); [| lia].
    apply Z.div_le_lower_bound; [done |]. nia.
  - intros k. replace (k * Z.to_nat skip)%nat with (Z.to_nat (Z.of_nat k * skip)) by lia.
    destruct (decide (k < length idxs)%nat) as [Hk|Hk].
    + destruct (Forall2_lookup_l _ _ _ k _ Hc (Hidx k Hk)) as (y & Hy & Hget).
      rewrite Hy. rewrite py_getitem_nonneg in Hget by lia.
      destruct (l !! Z.to_nat (Z.of_nat k * skip)); by inversion Hget.
    + rewrite (lookup_ge_None_2 cands) by lia.
      symmetry. apply lookup_ge_None_2. unfold len in *. nia.
Qed.

Lemma rescale_list_lookup {A} (l : list A) (size : Z) :
  0 < size -> size <= len l ->
  exists out, rescale_list l size = Ok out /\
    len out = size /\
    forall k : nat, Z.of_nat k < size ->
      out !! k = l !! (k * Z.to_nat (len l / size))%nat.
Proof.
  intros Hsize Hle.
  destruct (rescale_candidates_spec l size Hsize Hle) as (cands & Hc & Hlen & Hk).
  unfold rescale_list. rewrite Hc. simpl. eexists. split; [done |].
  rewrite py_slice_to_nonneg by lia. unfold len in *. split.
  - rewrite length_take. lia.
  - intros k Hlt. rewrite lookup_take_lt by lia. apply Hk.
Qed.

Lemma rescale_list_short {A} (l : list A) (size : Z) :
  len l < size -> rescale_list l size = Err AssertionError.
Proof.
  intros H. unfold rescale_list, rescale_candidates.
  by destruct (Z.leb_spec size (len l)); [lia |].
Qed.

(** With a target of zero the division that computes [skip] raises. *)
Lemma rescale_list_zero {A} (l : list A) :
  rescale_list l 0 = Err ZeroDivisionError.
Proof.
  unfold rescale_list, rescale_candidates.
  destruct (Z.leb_spec 0 (len l)); [done |]. pose proof (len_nonneg l). lia.
Qed.

(** C1. [rescale_list] fails (its assertion) when the list is shorter than
    the target [size]; otherwise, for a positive target, the candidate list
    holds exactly the elements at indices 0, skip, 2*skip, ... of the input,
    with skip = floor(L / size), and the result is that list cut to its
    first [size] entries, so entry [k] of the result is entry [k*skip] of
    the input. For L = 25, size = 5 the result is the elements at indices
    0, 5, 10, 15, 20; for L = 23, size = 5 the candidates are the indices
    0, 4, 8, 12, 16, 20 and the result is 0, 4, 8, 12, 16. *)
Theorem rescale_list_correct {A} (l : list A) (size : Z) :
  (len l < size -> rescale_list l size = Err AssertionError) /\
  (0 < size -> size <= len l ->
   exists cands out,
     rescale_candidates l size = Ok cands /\
     (forall k : nat, cands !! k = l !! (k * Z.to_nat (len l / size))%nat) /\
     rescale_list l size = Ok out /\
     out = take (Z.to_nat size) cands /\
     len out = size /\
     (forall k : nat, Z.of_nat k < size ->
        out !! k = l !! (k * Z.to_nat (len l / size))%nat)) /\
  rescale_list (seqZ 0 25) 5 = Ok [0; 5; 10; 15; 20] /\
  rescale_candidates (seqZ 0 23) 5 = Ok [0; 4; 8; 12; 16; 20] /\
  rescale_list (seqZ 0 23) 5 = Ok [0; 4; 8; 12; 16].
Proof.
  split; [apply rescale_list_short |]. split; [| done].
  intros Hsize Hle.
  destruct (rescale_candidates_spec l size Hsize Hle) as (cands & Hc & Hlen & Hk).
  destruct (rescale_list_lookup l size Hsize Hle) as (out & Ho & Hlo & Hko).
  exists cands, out. repeat split; try done.
  unfold rescale_list in Ho. rewrite Hc in Ho. simpl in Ho.
  injection Ho as <-. by apply py_slice_to_nonneg, Z.lt_le_incl.
Qed.

Lemma rescale_list_correct_witness :
  rescale_list ["f1"; "f2"; "f3"]%string 5 = Err AssertionError /\
  exists out, rescale_list (seqZ 10 7) 3 = Ok out /\ len out = 3 /\
    out !! 2%nat = seqZ 10 7 !! 4%nat.
Proof.
  split.
  - apply (rescale_list_correct ["f1"; "f2"; "f3"]%string 5). vm_compute. reflexivity.
  - destruct (rescale_list_correct (seqZ 10 7) 3) as (_ & H & _).
    destruct H as (cands & out & _ & _ & Ho & _ & Hl & Hk);
      [lia | vm_compute; discriminate |].
    exists out. split; [exact Ho |]. split; [exact Hl |].
    apply (Hk 2%nat). lia.
Defined.

(** C9 (as the claim is worded): the empty list has the length of the target
    0, and [rescale_list] does not return it: the division by the target
    raises [ZeroDivisionError]. *)
Lemma rescale_list_identity_counterexample :
  len (@nil string) = 0 /\
  rescale_list (@nil string) 0 = Err ZeroDivisionError /\
  ~ (forall (l : list string) (size : Z), len l = size -> rescale_list l size = Ok l).
Proof.
  split; [reflexivity |]. split; [reflexivity |].
  intros H. specialize (H [] 0 eq_refl). discriminate H.
Qed.

(** C9 (amended). For every non-empty list whose length equals the target
    size, [rescale_list] is the identity: skip is 1 and the slice removes
    nothing. *)
Theorem rescale_list_identity {A} (l : list A) (size : Z) :
  l <> [] -> len l = size -> rescale_list l size = Ok l.
Proof.
  intros Hne Hlen.
  assert (Hsize : 0 < size) by (destruct l; [done | unfold len in Hlen; simpl in Hlen; lia]).
  destruct (rescale_list_lookup l size Hsize) as (out & -> & Hlo & Hk); [lia |].
  f_equal. apply list_eq. intros k.
  destruct (decide (Z.of_nat k < size)) as [Hlt|Hge].
  - rewrite Hk by done. rewrite Hlen, Z_div_same_full by lia.
    f_equal. lia.
  - unfold len in *. rewrite !lookup_ge_None_2; [done | lia..].
Qed.

Lemma rescale_list_identity_witness :
  rescale_list ["a"; "b"; "c"; "d"]%string 4 = Ok ["a"; "b"; "c"; "d"]%string.
Proof.
  apply (rescale_list_identity ["a"; "b"; "c"; "d"]%string 4); [discriminate | reflexivity].
Defined.

(** ** [sorted]: a sorted, stable permutation *)

Section PySortedFacts.
Context {A : Type} (le : A -> A -> bool).
Hypothesis le_total : forall x y, le x y = true \/ le y x = true.
Hypothesis le_trans : forall x y z, le x y = true -> le y z = true -> le x z = true.

Let R (x y : A) : Prop := le x y = true.

Lemma insert_sorted_Permutation x l : insert_sorted le x l ≡ₚ x :: l.
Proof.
  induction l as [|y l IH]; simpl; [done |].
  destruct (le x y); [done |]. rewrite IH. apply perm_swap.
Qed.

Lemma py_sorted_Permutation l : py_sorted le l ≡ₚ l.
Proof.
  induction l as [|x l IH]; simpl; [done |].
  rewrite insert_sorted_Permutation. by rewrite IH.
Qed.

Lemma insert_sorted_StronglySorted x l :
  StronglySorted R l -> StronglySorted R (insert_sorted le x l).
Proof.
  induction 1 as [|y l Hl IH Hy]; simpl.
  - repeat constructor.
  - destruct (le x y) eqn:Hxy.
    + constructor; [by constructor |].
      constructor; [done |].
      eapply Forall_impl; [exact Hy |]. intros z Hz. by eapply le_trans.
    + constructor; [done |].
      rewrite insert_sorted_Permutation. constructor; [| done].
      destruct (le_total x y) as [H|H]; [congruence | done].
Qed.

Lemma py_sorted_StronglySorted l : StronglySorted R (py_sorted le l).
Proof.
  induction l as [|x l IH]; simpl; [constructor |].
  by apply insert_sorted_StronglySorted.
Qed.

Lemma insert_sorted_filter (P : A -> bool) x l :
  (forall y, le x y = false -> P x = true -> P y = true -> False) ->
  List.filter P (insert_sorted le x l) = List.filter P (x :: l).
Proof.
  intros HP. induction l as [|y l IH]; [done |].
  cbn [insert_sorted]. destruct (le x y) eqn:Hxy; [done |].
  pose proof (HP y Hxy) as Hnot. clear HP.
  cbn [List.filter] in *. rewrite IH.
  destruct (P x), (P y); try done. by destruct Hnot.
Qed.

(** Stability: the elements that tie with [a] come out in the order in
    which they came in. *)
Lemma py_sorted_stable a l :
  List.filter (ties le a) (py_sorted le l) = List.filter (ties le a) l.
Proof.
  induction l as [|x l IH]; [done |].
  cbn [py_sorted foldr]. fold (py_sorted le l).
  rewrite insert_sorted_filter.
  - cbn [List.filter]. by rewrite IH.
  - unfold ties. intros y Hxy [Hax Hxa]%andb_prop [Hay Hya]%andb_prop.
    rewrite (le_trans x a y) in Hxy; done.
Qed.
End PySortedFacts.

(** ** The order of strings *)

Lemma string_compare_lt_trans a b c :
  String.compare a b = Lt -> String.compare b c = Lt -> String.compare a c = Lt.
Proof.
  revert b c. induction a as [|x a IH]; intros [|y b] [|z c]; simpl; try done.
  unfold Ascii.compare.
  destruct (N.compare_spec (N_of_ascii x) (N_of_ascii y)) as [Hxy|Hxy|Hxy];
    destruct (N.compare_spec (N_of_ascii y) (N_of_ascii z)) as [Hyz|Hyz|Hyz];
    destruct (N.compare_spec (N_of_ascii x) (N_of_ascii z)) as [Hxz|Hxz|Hxz];
    try done; try lia.
  apply IH.
Qed.

Lemma string_compare_refl a : String.compare a a = Eq.
Proof.
  induction a as [|x a IH]; simpl; [done |].
  unfold Ascii.compare. by rewrite N.compare_refl.
Qed.

Lemma string_leb_trans a b c :
  String.leb a b = true -> String.leb b c = true -> String.leb a c = true.
Proof.
  unfold String.leb. intros Hab Hbc.
  destruct (String.compare a b) eqn:E1; [| | done].
  - apply String.compare_eq_iff in E1. by subst.
  - destruct (String.compare b c) eqn:E2; [| | done].
    + apply String.compare_eq_iff in E2. subst. by rewrite E1.
    + by rewrite (string_compare_lt_trans a b c).
Qed.

Lemma string_leb_lt a b : String.leb a b = true -> a <> b -> str_lt a b.
Proof.
  unfold String.leb, str_lt. intros H Hne.
  destruct (String.compare a b) eqn:E; [| done | done].
  by apply String.compare_eq_iff in E.
Qed.

Lemma str_lt_irrefl a : ~ str_lt a a.
Proof. unfold str_lt. by rewrite string_compare_refl. Qed.

#[global] Instance str_lt_trans : Transitive str_lt.
Proof. intros a b c. apply string_compare_lt_trans. Qed.

Lemma py_sorted_strings_lt (l : list string) :
  NoDup l -> StronglySorted str_lt (py_sorted String.leb l).
Proof.
  intros Hnd.
  pose proof (py_sorted_StronglySorted String.leb String.leb_total string_leb_trans l) as Hs.
  assert (Hnd' : NoDup (py_sorted String.leb l)) by by rewrite py_sorted_Permutation.
  induction Hs as [|x s Hs IH Hx]; [constructor |].
  apply NoDup_cons in Hnd' as [Hx' Hnd'].
  constructor; [by apply IH |].
  apply Forall_forall. intros y Hy.
  apply string_leb_lt; [by eapply Forall_forall in Hx | by intros ->].
Qed.

Lemma StronglySorted_str_lt_NoDup (l : list string) :
  StronglySorted str_lt l -> NoDup l.
Proof.
  induction 1 as [|x l Hl IH Hx]; constructor; [| done].
  intros Hin. eapply Forall_forall in Hx; [| done]. by apply str_lt_irrefl in Hx.
Qed.

(** ** The catalog: vocabulary and filter *)

Section CatalogFacts.
Variable py_int : string -> result Z.

Lemma get_classes_spec (self : DataSet) :
  (forall x, x ∈ data self -> is_Some (class_label x)) ->
  exists full,
    StronglySorted str_lt full /\
    (forall c, c ∈ full <-> exists x, x ∈ data self /\ class_label x = Some c) /\
    get_classes self = Ok (match class_limit self with
                           | Some limit => py_slice_to full limit
                           | None => full
                           end).
Proof.
  intros Hwf. unfold get_classes.
  destruct (comprehension_total (fun item : Row => py_getitem item 1) (data self))
    as [labels Hl].
  { intros x [c Hc]%Hwf. exists c. by apply (py_getitem_nat x 1). }
  rewrite Hl. simpl. apply comprehension_Forall2 in Hl.
  exists (py_sorted String.leb (elements (list_to_set labels : gset string))).
  split; [apply py_sorted_strings_lt, NoDup_elements |].
  split; [| by destruct (class_limit self)].
  intros c. rewrite py_sorted_Permutation, elem_of_elements, elem_of_list_to_set.
  split.
  - intros [k Hk]%list_elem_of_lookup.
    destruct (Forall2_lookup_r _ _ _ k _ Hl Hk) as (x & Hx & Hget).
    exists x. split; [by eapply list_elem_of_lookup_2 |].
    by apply (py_getitem_nat x 1).
  - intros (x & [k Hk]%list_elem_of_lookup & Hc).
    destruct (Forall2_lookup_l _ _ _ k _ Hl Hk) as (c' & Hc' & Hget).
    apply (py_getitem_nat x 1) in Hget. unfold class_label in Hc.
    assert (Some c' = Some c) as [= ->] by (rewrite <- Hget; exact Hc).
    by eapply list_elem_of_lookup_2.
Qed.

Lemma well_formed_class_label x : well_formed py_int x -> is_Some (class_label x).
Proof.
  unfold well_formed, frame_count, class_label. intros [n Hn].
  destruct (x !! 3%nat) eqn:E; [| done].
  apply lookup_lt_Some in E. apply lookup_lt_is_Some. lia.
Qed.

Lemma sample_filter_pure (self : DataSet) (x : Row) :
  well_formed py_int x -> sample_filter py_int self x = Ok (passes py_int self x).
Proof.
  intros Hwf. destruct (well_formed_class_label x Hwf) as [c Hc].
  destruct Hwf as [n Hn]. unfold passes. rewrite Hn, Hc.
  unfold frame_count in Hn. unfold class_label in Hc.
  destruct (x !! 3%nat) as [c3|] eqn:E3; [| done].
  destruct (py_int c3) as [n'|] eqn:En; [| done]. injection Hn as ->.
  unfold sample_filter.
  apply (py_getitem_nat x 3) in E3. apply (py_getitem_nat x 1) in Hc.
  change (Z.of_nat 3) with 3 in E3. change (Z.of_nat 1) with 1 in Hc.
  rewrite E3, Hc. simpl. rewrite En. simpl.
  destruct (seq_length self <=? n); [simpl | done].
  by destruct (n <=? max_frames self).
Qed.

(** Construction succeeds on every manifest whose rows are well formed,
    whatever the other arguments are, and yields the vocabulary of the raw
    rows and the raw rows that pass the filter. *)
Lemma DataSet_init_Ok (raw : list Row) (seq : Z) (nb : option Z) (shape : list Z) :
  (forall x, x ∈ raw -> well_formed py_int x) ->
  exists full,
    StronglySorted str_lt full /\
    (forall c, c ∈ full <-> exists x, x ∈ raw /\ class_label x = Some c) /\
    let cls := match nb with
               | Some limit => py_slice_to full limit
               | None => full
               end in
    let self := mkDataSet seq nb 300 raw cls [] in
    DataSet_init py_int raw seq nb shape =
      Ok (mkDataSet seq nb 300 (List.filter (passes py_int self) raw) cls shape).
Proof.
  intros Hwf.
  destruct (get_classes_spec (mkDataSet seq nb 300 raw [] [])) as (full & Hs & Hin & Hg).
  { intros x Hx. by apply well_formed_class_label, Hwf. }
  exists full. split; [done |]. split; [done |].
  intros cls self. unfold DataSet_init. rewrite Hg. cbn [class_limit mbind result_bind].
  fold cls. unfold clean_data, set_classes. cbn [data seq_length class_limit max_frames image_shape].
  fold self. rewrite (py_filter_pure _ (passes py_int self)).
  - done.
  - intros x Hx. apply sample_filter_pure, Hwf, Hx.
Qed.
End CatalogFacts.

Lemma demo_raw_well_formed : Forall (well_formed decimal_int) demo_raw.
Proof. repeat constructor; vm_compute; eexists; reflexivity. Defined.

(** In the example manifest the only clip of class Diving has 301 frames:
    the class is in the vocabulary although none of its samples passes the
    filter. *)
Lemma vocabulary_not_from_filtered_example :
  exists ds, DataSet_init decimal_int demo_raw 3 None [2; 2] = Ok ds /\
    "Diving"%string ∈ classes ds /\
    Forall (fun x => class_label x <> Some "Diving"%string) (data ds).
Proof.
  eexists. split; [vm_compute; reflexivity |]. split.
  - cbn [classes]. rewrite !elem_of_cons. auto.
  - repeat constructor; discriminate.
Qed.

(** C2. For every raw sample set (whose rows are well formed, so that the
    catalog is built at all), the class vocabulary of the catalog is sorted
    lexicographically and has no duplicates; it is a prefix of the complete
    sorted vocabulary, namely its first [class_limit] entries when a
    (non-negative) class limit is set and all of it otherwise; and the
    complete vocabulary consists of the class labels of the unfiltered raw
    rows. *)
Theorem class_vocabulary_sorted_prefix (py_int : string -> result Z)
    (raw : list Row) (seq : Z) (nb : option Z) (shape : list Z) :
  Forall (well_formed py_int) raw ->
  exists ds full,
    DataSet_init py_int raw seq nb shape = Ok ds /\
    StronglySorted str_lt full /\
    (forall c, c ∈ full <-> exists x, x ∈ raw /\ class_label x = Some c) /\
    StronglySorted str_lt (classes ds) /\
    NoDup (classes ds) /\
    classes ds `prefix_of` full /\
    match nb with
    | Some limit => 0 <= limit -> classes ds = take (Z.to_nat limit) full
    | None => classes ds = full
    end.
Proof.
  intros Hwf. rewrite Forall_forall in Hwf.
  destruct (DataSet_init_Ok py_int raw seq nb shape Hwf) as (full & Hs & Hin & Hinit).
  cbv zeta in Hinit. eexists _, full. split; [exact Hinit |].
  cbn [classes]. split; [done |]. split; [done |].
  assert (Hpre : match nb with
                 | Some limit => py_slice_to full limit
                 | None => full
                 end `prefix_of` full)
    by (destruct nb; [apply py_slice_to_prefix | done]).
  assert (Hs' : StronglySorted str_lt match nb with
                                      | Some limit => py_slice_to full limit
                                      | None => full
                                      end).
  { destruct Hpre as [k Hk]. rewrite Hk in Hs. by apply StronglySorted_app_1_l in Hs. }
  split; [done |]. split; [by apply StronglySorted_str_lt_NoDup |]. split; [done |].
  destruct nb as [limit|]; [| done]. intros Hl. by apply py_slice_to_nonneg.
Qed.

Lemma class_vocabulary_sorted_prefix_witness :
  Forall (well_formed decimal_int) demo_raw /\
  exists ds, DataSet_init decimal_int demo_raw 3 (Some 2) [2; 2] = Ok ds /\
    StronglySorted str_lt (classes ds) /\ NoDup (classes ds).
Proof.
  split; [exact demo_raw_well_formed |].
  destruct (class_vocabulary_sorted_prefix decimal_int demo_raw 3 (Some 2) [2; 2]
              demo_raw_well_formed) as (ds & full & Hinit & _ & _ & Hs & Hnd & _).
  exists ds. split; [exact Hinit |]. split; [exact Hs | exact Hnd].
Defined.

(** C3. For every raw sample set (with well-formed rows), the catalog keeps
    [max_frames] = 300, and a sample is in the filtered sample set if and
    only if it is a raw sample with [seq_length <= frame_count <= max_frames]
    whose class label is in the class vocabulary; the filtered set is the
    raw list with the other samples removed, so every sample that passed the
    filter satisfies the predicate. *)
Theorem filtered_sample_set_iff (py_int : string -> result Z)
    (raw : list Row) (seq : Z) (nb : option Z) (shape : list Z) :
  Forall (well_formed py_int) raw ->
  exists ds,
    DataSet_init py_int raw seq nb shape = Ok ds /\
    seq_length ds = seq /\
    max_frames ds = 300 /\
    data ds = List.filter (passes py_int ds) raw /\
    forall x, x ∈ data ds <->
      x ∈ raw /\
      exists n c, frame_count py_int x = Some n /\ class_label x = Some c /\
        seq_length ds <= n /\ n <= max_frames ds /\ c ∈ classes ds.
Proof.
  intros Hwf. rewrite Forall_forall in Hwf.
  destruct (DataSet_init_Ok py_int raw seq nb shape Hwf) as (full & _ & _ & Hinit).
  cbv zeta in Hinit. eexists. split; [exact Hinit |].
  cbn [seq_length max_frames data classes]. do 3 (split; [done |]).
  intros x. rewrite list_elem_of_In, filter_In, <- list_elem_of_In.
  apply and_iff_compat_l. unfold passes. cbn [seq_length max_frames classes].
  split.
  - destruct (frame_count py_int x) as [n|], (class_label x) as [c|]; try done.
    intros [[H1%Z.leb_le H2%Z.leb_le]%andb_prop H3%bool_decide_eq_true]%andb_prop.
    by exists n, c.
  - intros (n & c & -> & -> & H1 & H2 & H3).
    apply andb_true_intro. split; [apply andb_true_intro; split |].
    + by apply Z.leb_le.
    + by apply Z.leb_le.
    + by apply bool_decide_eq_true.
Qed.

Lemma filtered_sample_set_iff_witness :
  Forall (well_formed decimal_int) demo_raw /\
  exists ds, DataSet_init decimal_int demo_raw 3 None [2; 2] = Ok ds /\
    max_frames ds = 300 /\
    data ds = List.filter (passes decimal_int ds) demo_raw.
Proof.
  split; [exact demo_raw_well_formed |].
  destruct (filtered_sample_set_iff decimal_int demo_raw 3 None [2; 2]
              demo_raw_well_formed) as (ds & Hinit & _ & Hmax & Hdata & _).
  exists ds. split; [exact Hinit |]. split; [exact Hmax | exact Hdata].
Defined.

(** C6 (as the claim is worded): construction with [seq_length] 0 or -1
    over the example manifest does not fail; it returns a catalog. *)
Lemma init_nonpositive_seq_length_counterexample :
  is_Ok (DataSet_init decimal_int demo_raw 0 None [2; 2]) /\
  is_Ok (DataSet_init decimal_int demo_raw (-1) None [2; 2]) /\
  ~ (forall raw seq nb shape,
       seq <= 0 -> is_Err (DataSet_init decimal_int raw seq nb shape)).
Proof.
  assert (H0 : is_Ok (DataSet_init decimal_int demo_raw 0 None [2; 2]))
    by (eexists; vm_compute; reflexivity).
  split; [exact H0 |]. split; [eexists; vm_compute; reflexivity |].
  intros H. destruct H0 as [ds Hds].
  destruct (H demo_raw 0 None [2; 2]) as [e He]; [lia |]. congruence.
Qed.

(** C6 (amended). Catalog construction does not check [seq_length]: for a
    [seq_length] less than or equal to 0 it succeeds on every manifest with
    well-formed rows and stores the value as given. *)
Theorem init_accepts_nonpositive_seq_length (py_int : string -> result Z)
    (raw : list Row) (seq : Z) (nb : option Z) (shape : list Z) :
  seq <= 0 ->
  Forall (well_formed py_int) raw ->
  exists ds, DataSet_init py_int raw seq nb shape = Ok ds /\ seq_length ds = seq.
Proof.
  intros _ Hwf. rewrite Forall_forall in Hwf.
  destruct (DataSet_init_Ok py_int raw seq nb shape Hwf) as (full & _ & _ & Hinit).
  cbv zeta in Hinit. eexists. split; [exact Hinit | done].
Qed.

Lemma init_accepts_nonpositive_seq_length_witness :
  0 <= 0 /\ Forall (well_formed decimal_int) demo_raw /\
  exists ds, DataSet_init decimal_int demo_raw 0 (Some 2) [2; 2] = Ok ds /\
    seq_length ds = 0.
Proof.
  split; [lia |]. split; [exact demo_raw_well_formed |].
  apply (init_accepts_nonpositive_seq_length decimal_int demo_raw 0 (Some 2) [2; 2]);
    [lia | exact demo_raw_well_formed].
Defined.

(** ** Class index and one-hot vector *)

Lemma list_index_from_spec `{EqDecision A} (i : Z) (l : list A) (x : A) :
  x ∈ l ->
  exists k : nat, list_index_from i l x = Ok (i + Z.of_nat k) /\
    l !! k = Some x /\ forall j : nat, (j < k)%nat -> l !! j <> Some x.
Proof.
  revert i. induction l as [|y l IH]; intros i Hin; [by apply elem_of_nil in Hin |].
  simpl. destruct (decide (y = x)) as [->|Hne].
  - exists 0%nat. split; [f_equal; lia |]. split; [done |]. lia.
  - apply elem_of_cons in Hin as [->|Hin]; [done |].
    destruct (IH (i + 1) Hin) as (k & Hk & Hl & Hfirst).
    exists (S k). split; [rewrite Hk; f_equal; lia |]. split; [done |].
    intros [|j] Hj; simpl; [congruence | apply Hfirst; lia].
Qed.

Lemma list_index_from_absent `{EqDecision A} (i : Z) (l : list A) (x : A) :
  x ∉ l -> list_index_from i l x = Err ValueError.
Proof.
  revert i. induction l as [|y l IH]; intros i Hin; [done |].
  simpl. apply not_elem_of_cons in Hin as [Hne Hin].
  destruct (decide (y = x)); [congruence | by apply IH].
Qed.

Lemma count_ones_replicate (n : nat) : List.filter (Z.eqb 1) (replicate n 0) = [].
Proof. induction n; [done | by simpl]. Qed.

Lemma to_categorical_spec (y : nat) (n : Z) :
  Z.of_nat y < n ->
  exists v, to_categorical (Z.of_nat y) n = Ok v /\
    len v = n /\
    (forall j : nat, Z.of_nat j < n -> v !! j = Some (if decide (j = y) then 1 else 0)) /\
    List.filter (Z.eqb 1) v = [1].
Proof.
  intros Hy. unfold to_categorical.
  destruct (Z.ltb_spec (Z.of_nat y) 0); [lia |].
  destruct (Z.leb_spec n (Z.of_nat y)); [lia |]. simpl.
  eexists. split; [done |]. rewrite Nat2Z.id. split; [| split].
  - unfold len. rewrite length_insert, length_replicate. lia.
  - intros j Hj. rewrite list_lookup_insert.
    rewrite length_replicate.
    destruct (decide (y = j /\ (y < Z.to_nat n)%nat)) as [[-> _]|Hn].
    + by rewrite decide_True.
    + rewrite decide_False by lia. apply lookup_replicate_2. lia.
  - rewrite insert_replicate_lt by lia.
    rewrite List.filter_app. simpl. by rewrite !count_ones_replicate.
Qed.

(** C4. For every class label in the class vocabulary, the class index is
    the position of the label in the vocabulary (the vocabulary read at the
    class index gives the label back), and the one-hot vector has the length
    of the vocabulary, a 1 at the class index and 0 everywhere else, so
    exactly one entry is equal to 1. *)
Theorem one_hot_round_trip (self : DataSet) (label : string) :
  label ∈ classes self ->
  exists (i : nat) (v : list Z),
    list_index (classes self) label = Ok (Z.of_nat i) /\
    py_getitem (classes self) (Z.of_nat i) = Ok label /\
    get_class_one_hot self label = Ok v /\
    length v = length (classes self) /\
    (forall j : nat, (j < length v)%nat ->
       v !! j = Some (if decide (j = i) then 1 else 0)) /\
    length (List.filter (Z.eqb 1) v) = 1%nat.
Proof.
  intros Hin.
  destruct (list_index_from_spec 0 (classes self) label Hin) as (i & Hi & Hl & _).
  rewrite Z.add_0_l in Hi. fold (list_index (classes self) label) in Hi.
  pose proof (lookup_lt_Some _ _ _ Hl) as Hlt.
  destruct (to_categorical_spec i (len (classes self))) as (v & Hv & Hlen & Hj & Hone);
    [unfold len; lia |].
  exists i, v. split; [done |]. split; [by apply py_getitem_nat |].
  unfold get_class_one_hot. rewrite Hi. simpl. rewrite Hv. simpl.
  rewrite bool_decide_true by done. simpl. split; [done |].
  unfold len in Hlen. split; [lia |]. split.
  - intros j Hjlt. apply Hj. unfold len. lia.
  - by rewrite Hone.
Qed.

Lemma one_hot_round_trip_witness :
  exists (i : nat) (v : list Z),
    list_index ["Archery"; "Bowling"; "Diving"]%string "Bowling"%string = Ok (Z.of_nat i) /\
    get_class_one_hot
      (mkDataSet 3 None 300 [] ["Archery"; "Bowling"; "Diving"]%string [2; 2])
      "Bowling"%string = Ok v /\
    length (List.filter (Z.eqb 1) v) = 1%nat.
Proof.
  destruct (one_hot_round_trip
              (mkDataSet 3 None 300 [] ["Archery"; "Bowling"; "Diving"]%string [2; 2])
              "Bowling"%string) as (i & v & Hi & _ & Hv & _ & _ & Hone).
  - cbn [classes]. rewrite !elem_of_cons. auto.
  - exists i, v. split; [exact Hi |]. split; [exact Hv | exact Hone].
Defined.

(** ** [random.sample]: distinct positions of the population *)

Section SampleFacts.
Variable Rng : Type.
Variable getrandbits : Rng -> nat * Rng.

Lemma randbelow_lt (g : Rng) (n : nat) :
  (0 < n)%nat -> ((randbelow Rng getrandbits g n).1 < n)%nat.
Proof.
  intros Hn. unfold randbelow. destruct (getrandbits g) as [r g']. simpl.
  apply Nat.mod_upper_bound. lia.
Qed.

(** The draws do not look at the elements: sampling a mapped pool is
    mapping the sample. *)
Lemma sample_pool_fmap {A B} (f : A -> B) (k m : nat) (pool : list A) (g : Rng) :
  sample_pool Rng getrandbits k m (f <$> pool) g =
    (fmap (M := list) f <$> (sample_pool Rng getrandbits k m pool g).1,
     (sample_pool Rng getrandbits k m pool g).2).
Proof.
  revert m pool g. induction k as [|k IH]; intros m pool g; [done |].
  cbn [sample_pool]. destruct (randbelow Rng getrandbits g m) as [j g1].
  rewrite !list_lookup_fmap.
  destruct (pool !! j) as [x|]; [| done].
  destruct (pool !! (m - 1)%nat) as [y|]; [| done]. cbn [fmap option_fmap option_map].
  rewrite <- list_fmap_insert, IH.
  destruct (sample_pool Rng getrandbits k (m - 1) (<[j:=y]> pool) g1) as [[r|e] g2]; done.
Qed.

Lemma sample_pool_distinct {A} (k m : nat) (pool : list A) (g : Rng) :
  (k <= m)%nat -> pool_distinct m pool ->
  exists picks, (sample_pool Rng getrandbits k m pool g).1 = Ok picks /\
    length picks = k /\ NoDup picks /\
    forall p, p ∈ picks -> exists i : nat, (i < m)%nat /\ pool !! i = Some p.
Proof.
  revert m pool g. induction k as [|k IH]; intros m pool g Hk [Hlen Hd].
  { exists []. repeat split; [constructor | by intros p ?%elem_of_nil]. }
  cbn [sample_pool].
  pose proof (randbelow_lt g m ltac:(lia)) as Hj.
  destruct (randbelow Rng getrandbits g m) as [j g1]. simpl in Hj.
  destruct (lookup_lt_is_Some_2 pool j ltac:(lia)) as [x Hx].
  destruct (lookup_lt_is_Some_2 pool (m - 1) ltac:(lia)) as [y Hy].
  rewrite Hx, Hy.
  assert (Hlook : forall i : nat, (i < m - 1)%nat ->
            <[j:=y]> pool !! i = if decide (i = j) then Some y else pool !! i).
  { intros i Hi. rewrite list_lookup_insert.
    destruct (decide (i = j)) as [->|Hne];
      [rewrite decide_True by lia | rewrite decide_False by lia]; done. }
  destruct (IH (m - 1)%nat (<[j:=y]> pool) g1) as (rest & Hrest & Hl & Hnd & Hin).
  { lia. }
  { split; [rewrite length_insert; lia |].
    intros i i' z Hi Hi'. rewrite !Hlook by done.
    destruct (decide (i = j)) as [->|Hne], (decide (i' = j)) as [->|Hne'];
      intros Hz Hz'; try done.
    - rewrite Hz in Hy.
      pose proof (Hd i' (m - 1)%nat z ltac:(lia) ltac:(lia) Hz' Hy). lia.
    - rewrite Hz' in Hy.
      pose proof (Hd i (m - 1)%nat z ltac:(lia) ltac:(lia) Hz Hy). lia.
    - apply (Hd i i' z); [lia | lia | done | done]. }
  destruct (sample_pool Rng getrandbits k (m - 1) (<[j:=y]> pool) g1) as [r g2].
  simpl in Hrest. subst r. simpl.
  exists (x :: rest). split; [done |]. split; [simpl; lia |]. split.
  - constructor; [| done]. intros (i & Hi & Hp)%Hin.
    rewrite Hlook in Hp by done. destruct (decide (i = j)) as [->|Hne].
    + rewrite Hp in Hy.
      pose proof (Hd j (m - 1)%nat x ltac:(lia) ltac:(lia) Hx Hy). lia.
    + pose proof (Hd i j x ltac:(lia) ltac:(lia) Hp Hx). lia.
  - intros p [->|Hp]%elem_of_cons; [by exists j |].
    destruct (Hin p Hp) as (i & Hi & Hpi). rewrite Hlook in Hpi by done.
    destruct (decide (i = j)); [exists (m - 1)%nat | exists i].
    + split; [lia | congruence].
    + split; [lia | done].
Qed.

Lemma random_sample_fail {A} (population : list A) (k : Z) (g : Rng) :
  k < 0 \/ len population < k ->
  random_sample Rng getrandbits population k g = (Err ValueError, g).
Proof.
  intros H. unfold random_sample.
  destruct (Z.ltb_spec k 0), (Z.ltb_spec (len population) k); try done. lia.
Qed.

(** [random.sample] returns [k] elements that stand at [k] different
    positions of the population. *)
Lemma random_sample_spec {A} (population : list A) (k : Z) (g : Rng) :
  0 <= k -> k <= len population ->
  exists (idxs : list nat) (samples : list A),
    (random_sample Rng getrandbits population k g).1 = Ok samples /\
    len idxs = k /\ NoDup idxs /\
    Forall2 (fun (i : nat) s => population !! i = Some s) idxs samples.
Proof.
  intros Hk0 Hk. unfold random_sample.
  destruct (Z.ltb_spec k 0), (Z.ltb_spec (len population) k); try lia. simpl.
  set (n := length population).
  destruct (sample_pool_distinct (Z.to_nat k) n (seq 0 n) g) as (idxs & Hi & Hl & Hnd & Hin).
  { unfold len in Hk. lia. }
  { split; [by rewrite length_seq |]. intros i i' x Hlt Hlt'.
    rewrite !lookup_seq_lt by done. intros [= H1] [= H2]. lia. }
  assert (Hpop : Some <$> population = (fun i => population !! i) <$> seq 0 n).
  { apply list_eq. intros i. rewrite !list_lookup_fmap.
    destruct (decide (i < n)%nat).
    - rewrite lookup_seq_lt by done. simpl.
      destruct (lookup_lt_is_Some_2 population i ltac:(done)) as [a Ha].
      by rewrite Ha.
    - rewrite lookup_seq_ge by lia. rewrite lookup_ge_None_2 by (unfold n in *; lia). done. }
  pose proof (sample_pool_fmap (@Some A) (Z.to_nat k) n population g) as H1.
  pose proof (sample_pool_fmap (fun i => population !! i) (Z.to_nat k) n (seq 0 n) g) as H2.
  rewrite Hpop, H2, Hi in H1. simpl in H1.
  destruct (sample_pool Rng getrandbits (Z.to_nat k) n population g) as [[samples|e] g'];
    [| done].
  injection H1 as H1 _. exists idxs, samples. split; [done |].
  split; [unfold len; lia |]. split; [done |].
  apply Forall2_same_length_lookup. split.
  - apply (f_equal length) in H1. by rewrite !length_fmap in H1.
  - intros t i s Hti Hts. apply (f_equal (fun l => l !! t)) in H1.
    rewrite !list_lookup_fmap, Hti, Hts in H1. simpl in H1. congruence.
Qed.
End SampleFacts.

(** ** The batch generator *)

Lemma np_zeros_cases (shape : list Z) :
  (np_zeros shape = Ok tt /\ Forall (fun d => 0 <= d) shape) \/
  np_zeros shape = Err ValueError.
Proof.
  unfold np_zeros. destruct (decide (Forall (fun d => 0 <= d) shape)).
  - left. by rewrite bool_decide_true.
  - right. by rewrite bool_decide_false.
Qed.

Lemma py_filter_split (name : string) (rows : list Row) :
  Forall (fun x : Row => x <> []) rows ->
  py_filter (fun x : Row => s ← py_getitem x 0; Ok (bool_decide (s = name))) rows =
    Ok (List.filter (fun x : Row => bool_decide (x !! 0%nat = Some name)) rows).
Proof.
  intros Hne. rewrite Forall_forall in Hne. apply py_filter_pure.
  intros [|s x] Hx; [by destruct (Hne [] Hx) |]. simpl. f_equal.
  apply bool_decide_ext. split; [by intros -> | by intros [= ->]].
Qed.

Lemma split_train_test_pure (self : DataSet) :
  Forall (fun x : Row => x <> []) (data self) ->
  split_train_test self =
    Ok (List.filter (fun x : Row => bool_decide (x !! 0%nat = Some "train"%string)) (data self),
        List.filter (fun x : Row => bool_decide (x !! 0%nat = Some "test"%string)) (data self)).
Proof.
  intros Hne. unfold split_train_test. by rewrite !py_filter_split.
Qed.

Section GeneratorFacts.
Variable glob : string -> list string.
Variable Image : Type.
Variable process_image : string -> list Z -> result Image.
Variable Rng : Type.
Variable getrandbits : Rng -> nat * Rng.

Abbreviation next_batch' := (next_batch glob Image process_image Rng getrandbits).
Abbreviation make_sample' := (make_sample glob Image process_image).
Abbreviation gen_next' := (gen_next glob Image process_image Rng getrandbits).
Abbreviation run_iteration' := (run_iteration glob Image process_image Rng getrandbits).
Abbreviation random_sample' := (random_sample Rng getrandbits).

Lemma next_batch_too_large (self : DataSet) (batch_size : Z) (data : list Row) (g : Rng) :
  len data < batch_size ->
  next_batch' self batch_size data g = (Err ValueError, g).
Proof.
  intros Hlt. unfold next_batch'.
  destruct (np_zeros_cases (batch_size :: seq_length self :: image_shape self))
    as [[-> _]| ->]; [simpl | done].
  destruct (np_zeros_cases [batch_size; len (classes self)]) as [[-> _]| ->]; [| done].
  by rewrite random_sample_fail by (by right).
Qed.

Lemma next_batch_Ok (self : DataSet) (batch_size : Z) (data : list Row) (g g' : Rng)
    (x : list (list Image)) (y : list (list Z)) :
  next_batch' self batch_size data g = (Ok (x, y), g') ->
  len x = batch_size /\ len y = batch_size /\ batch_size <= len data /\
  exists (idxs : list nat) (samples : list Row),
    (random_sample' data batch_size g).1 = Ok samples /\
    len idxs = batch_size /\ NoDup idxs /\
    Forall2 (fun (i : nat) s => data !! i = Some s) idxs samples /\
    Forall2 (fun s xy => make_sample' self s = Ok xy) samples (zip x y).
Proof.
  unfold next_batch'. intros H.
  destruct (np_zeros_cases (batch_size :: seq_length self :: image_shape self))
    as [[H1 Hpos]|H1]; rewrite H1 in H; [simpl in H | done].
  apply Forall_cons in Hpos as [Hpos _].
  destruct (np_zeros_cases [batch_size; len (classes self)]) as [[H2 _]|H2];
    rewrite H2 in H; [| done].
  destruct (Z.le_gt_cases batch_size (len data)) as [Hle|Hgt].
  2:{ rewrite random_sample_fail in H by (right; lia). done. }
  destruct (random_sample_spec Rng getrandbits data batch_size g Hpos Hle)
    as (idxs & samples & Hs & Hl & Hnd & Hf).
  destruct (random_sample' data batch_size g) as [r g1]. simpl in Hs. subst r.
  injection H as H _. inv_bind H. rename a into rows.
  apply comprehension_Forall2 in Ha.
  pose proof (Forall2_length _ _ _ Hf) as Hlen1.
  pose proof (Forall2_length _ _ _ Ha) as Hlen2.
  subst x y. unfold len in *. rewrite !length_fmap.
  split; [lia |]. split; [lia |]. split; [lia |].
  exists idxs, samples. rewrite zip_fst_snd. done.
Qed.

Lemma gen_next_created (self : DataSet) (batch_size : Z) (train_test : string)
    (data : list Row) (g : Rng) :
  select_data self train_test = Ok data ->
  gen_next' (GenCreated self batch_size train_test) g =
    gen_next' (GenRunning self batch_size data) g.
Proof. intros H. simpl. by rewrite H. Qed.

Lemma gen_next_running_Ok (self : DataSet) (batch_size : Z) (data : list Row)
    (g g' : Rng) (b : Batch Image) (gen' : Generator) :
  gen_next' (GenRunning self batch_size data) g = (Ok b, gen', g') ->
  gen' = GenRunning self batch_size data.
Proof.
  simpl. unfold run_iteration'.
  destruct (next_batch' self batch_size data g) as [[b'|e] g1]; by intros [= _ <- _].
Qed.

(** C5. For every partition and batch size: a NextBatch call with a batch
    size greater than the partition size fails (with the [ValueError] of
    [random.sample]; the spec calls it InsufficientDataError), from a
    fresh generator as well as from a running one, and the generator is
    finished; a call that succeeds returns exactly [batch_size] sequences
    and [batch_size] labels, built from samples that stand at
    [batch_size] pairwise different positions of the partition. *)
Theorem next_batch_all_or_nothing (self : DataSet) (batch_size : Z)
    (data : list Row) (g : Rng) :
  (len data < batch_size ->
   next_batch' self batch_size data g = (Err ValueError, g) /\
   gen_next' (GenRunning self batch_size data) g = (Err ValueError, GenDone, g) /\
   forall train_test, select_data self train_test = Ok data ->
     gen_next' (GenCreated self batch_size train_test) g = (Err ValueError, GenDone, g)) /\
  (forall x y g',
     next_batch' self batch_size data g = (Ok (x, y), g') ->
     len x = batch_size /\ len y = batch_size /\
     exists (idxs : list nat) (samples : list Row),
       (random_sample' data batch_size g).1 = Ok samples /\
       len idxs = batch_size /\ NoDup idxs /\
       Forall2 (fun (i : nat) s => data !! i = Some s) idxs samples /\
       Forall2 (fun s xy => make_sample' self s = Ok xy) samples (zip x y)).
Proof.
  split.
  - intros Hlt. pose proof (next_batch_too_large self batch_size data g Hlt) as Hn.
    split; [done |].
    assert (Hr : gen_next' (GenRunning self batch_size data) g = (Err ValueError, GenDone, g))
      by (cbn [gen_next]; unfold run_iteration; by rewrite Hn).
    split; [done |]. intros tt Hsel. by rewrite (gen_next_created _ _ _ data).
  - intros x y g' H. apply next_batch_Ok in H as (Hx & Hy & _ & H). done.
Qed.

(** C7 (amended). Constructing a batch generator never fails and resolves
    nothing. The partition is resolved by the first NextBatch call, once:
    a generator that has yielded a batch keeps the partition it resolved,
    and what it yields does not depend on the catalog's sample list any
    more. Over an empty partition the first NextBatch call with a positive
    batch size fails with [ValueError], and the generator is finished. *)
Theorem generator_resolves_partition_on_first_next (self : DataSet) (batch_size : Z)
    (train_test : string) (g : Rng) :
  frame_generator self batch_size train_test = Ok (GenCreated self batch_size train_test) /\
  (forall data, select_data self train_test = Ok data ->
     gen_next' (GenCreated self batch_size train_test) g =
       gen_next' (GenRunning self batch_size data) g) /\
  (forall data b gen' g',
     gen_next' (GenRunning self batch_size data) g = (Ok b, gen', g') ->
     gen' = GenRunning self batch_size data) /\
  (forall data rows,
     next_batch' (set_data self rows) batch_size data g = next_batch' self batch_size data g) /\
  (select_data self train_test = Ok [] -> 0 < batch_size ->
   gen_next' (GenCreated self batch_size train_test) g = (Err ValueError, GenDone, g)).
Proof.
  split; [done |]. split; [intros data; apply gen_next_created |].
  split; [intros data b gen' g'; apply gen_next_running_Ok |].
  split; [done |].
  intros Hsel Hpos. rewrite (gen_next_created _ _ _ [] g Hsel).
  cbn [gen_next]. unfold run_iteration.
  by rewrite next_batch_too_large by (unfold len; simpl; lia).
Qed.

(** C10. For every partition name other than exactly "train", the
    generator is constructed without failure and its first NextBatch call
    is one loop turn over the test partition, the filtered samples whose
    first cell is "test": the name causes no error of its own, the call
    returns what [next_batch] over the test partition returns, and a batch
    it yields is built from samples that stand at pairwise different
    positions of the test partition, after which the generator keeps that
    partition. It behaves exactly as the generator constructed with
    "test". *)
Theorem other_partition_names_draw_test (self : DataSet) (batch_size : Z)
    (train_test : string) (g : Rng) :
  train_test <> "train"%string ->
  Forall (fun x : Row => x <> []) (data self) ->
  frame_generator self batch_size train_test = Ok (GenCreated self batch_size train_test) /\
  select_data self train_test = Ok (test_partition self) /\
  select_data self train_test = select_data self "test" /\
  gen_next' (GenCreated self batch_size train_test) g =
    gen_next' (GenCreated self batch_size "test") g /\
  gen_next' (GenCreated self batch_size train_test) g =
    ((next_batch' self batch_size (test_partition self) g).1,
     match (next_batch' self batch_size (test_partition self) g).1 with
     | Ok _ => GenRunning self batch_size (test_partition self)
     | Err _ => GenDone
     end,
     (next_batch' self batch_size (test_partition self) g).2) /\
  (forall x y gen' g',
     gen_next' (GenCreated self batch_size train_test) g = (Ok (x, y), gen', g') ->
     gen' = GenRunning self batch_size (test_partition self) /\
     len x = batch_size /\ len y = batch_size /\
     exists (idxs : list nat) (samples : list Row),
       len idxs = batch_size /\ NoDup idxs /\
       Forall2 (fun (i : nat) s => test_partition self !! i = Some s) idxs samples /\
       Forall (fun s : Row => s ∈ data self /\ s !! 0%nat = Some "test"%string) samples /\
       Forall2 (fun s xy => make_sample' self s = Ok xy) samples (zip x y)).
Proof.
  intros Hne Hrows. split; [done |].
  assert (Hsel : select_data self train_test = select_data self "test").
  { unfold select_data. destruct (split_train_test self) as [[train test]|e]; [| done].
    simpl. by rewrite bool_decide_false. }
  assert (Htest : select_data self train_test = Ok (test_partition self)).
  { rewrite Hsel. unfold select_data. by rewrite split_train_test_pure. }
  assert (Hnext : gen_next' (GenCreated self batch_size train_test) g =
            ((next_batch' self batch_size (test_partition self) g).1,
             match (next_batch' self batch_size (test_partition self) g).1 with
             | Ok _ => GenRunning self batch_size (test_partition self)
             | Err _ => GenDone
             end,
             (next_batch' self batch_size (test_partition self) g).2)).
  { cbn [gen_next]. rewrite Htest. unfold run_iteration.
    by destruct (next_batch' self batch_size (test_partition self) g) as [r g1]. }
  split; [done |]. split; [done |].
  split; [cbn [gen_next]; by rewrite Hsel |]. split; [done |].
  intros x y gen' g' H. rewrite Hnext in H.
  destruct (next_batch' self batch_size (test_partition self) g) as [[b|e] g1] eqn:Hb;
    [| done].
  cbn [fst snd] in H. injection H as -> <- <-. split; [done |].
  apply next_batch_Ok in Hb as (Hx & Hy & _ & idxs & samples & _ & Hl & Hnd & Hf & Hm).
  split; [done |]. split; [done |].
  exists idxs, samples. split; [done |]. split; [done |]. split; [done |].
  split; [| done].
  apply Forall_forall. intros s [k Hk]%list_elem_of_lookup.
  destruct (Forall2_lookup_r _ _ _ k _ Hf Hk) as (i & _ & Hi).
  apply list_elem_of_lookup_2 in Hi. unfold test_partition in Hi.
  rewrite list_elem_of_In, filter_In, <- list_elem_of_In in Hi.
  destruct Hi as [Hin Ht]. by apply bool_decide_eq_true in Ht.
Qed.
End GeneratorFacts.

(** ** The ranking of predictions *)

Lemma dict_set_fresh `{EqDecision K} {V} (d : list (K * V)) (k : K) (v : V) :
  k ∉ d.*1 -> dict_set d k v = d ++ [(k, v)].
Proof.
  induction d as [|[k' v'] d IH]; intros Hk; [done |]. simpl in *.
  apply not_elem_of_cons in Hk as [Hne Hk].
  destruct (decide (k' = k)); [congruence |]. by rewrite IH.
Qed.

(** With a vocabulary without duplicates the dictionary is the list of the
    labels paired with the scores at the same positions. *)
Lemma build_label_predictions_zip (i : nat) (labels : list string) (predictions : list Q)
    (d : list (string * Q)) :
  NoDup labels -> (forall c, c ∈ labels -> c ∉ d.*1) ->
  (length labels + i <= length predictions)%nat ->
  build_label_predictions (Z.of_nat i) labels predictions d =
    Ok (d ++ zip labels (drop i predictions)).
Proof.
  revert i d. induction labels as [|c labels IH]; intros i d Hnd Hfresh Hlen.
  - simpl. by rewrite app_nil_r.
  - apply NoDup_cons in Hnd as [Hc Hnd]. simpl in Hlen.
    destruct (lookup_lt_is_Some_2 predictions i ltac:(lia)) as [p Hp].
    cbn [build_label_predictions]. rewrite (proj2 (py_getitem_nat predictions i p) Hp).
    cbn [mbind result_bind].
    rewrite dict_set_fresh by (apply Hfresh; left).
    replace (Z.of_nat i + 1) with (Z.of_nat (S i)) by lia.
    rewrite IH; [| done | | lia].
    + rewrite (drop_S _ _ _ Hp). simpl. by rewrite <- app_assoc.
    + intros c' Hc'. rewrite fmap_app. simpl. rewrite elem_of_app, list_elem_of_singleton.
      intros [Hin | ->]; [| done]. eapply Hfresh; [right; exact Hc' | done].
Qed.

(** A score vector shorter than the vocabulary makes the function raise. *)
Lemma build_label_predictions_short (i : nat) (labels : list string) (predictions : list Q)
    (d : list (string * Q)) :
  (i <= length predictions < length labels + i)%nat ->
  build_label_predictions (Z.of_nat i) labels predictions d = Err IndexError.
Proof.
  revert i d. induction labels as [|c labels IH]; intros i d Hlen; simpl in *; [lia |].
  rewrite py_getitem_nonneg by lia. rewrite Nat2Z.id.
  destruct (predictions !! i) as [p|] eqn:Hp; [| done]. simpl.
  apply lookup_lt_Some in Hp.
  replace (Z.of_nat i + 1) with (Z.of_nat (S i)) by lia. apply IH. lia.
Qed.

Lemma by_score_desc_total (a b : string * Q) :
  by_score_desc a b = true \/ by_score_desc b a = true.
Proof.
  unfold by_score_desc. rewrite !Qle_bool_iff.
  destruct (Qlt_le_dec a.2 b.2) as [H|H]; [right; by apply Qlt_le_weak | by left].
Qed.

Lemma by_score_desc_trans (a b c : string * Q) :
  by_score_desc a b = true -> by_score_desc b c = true -> by_score_desc a c = true.
Proof.
  unfold by_score_desc. rewrite !Qle_bool_iff. intros H1 H2. by eapply Qle_trans.
Qed.

Lemma ties_by_score (a p : string * Q) :
  ties by_score_desc a p = Qeq_bool p.2 a.2.
Proof.
  unfold ties, by_score_desc. apply eq_true_iff_eq.
  rewrite andb_true_iff, !Qle_bool_iff, Qeq_bool_iff. split.
  - intros [H1 H2]. by apply Qle_antisym.
  - intros H. rewrite H. split; apply Qle_refl.
Qed.

Lemma print_loop_spec (i n : Z) (l : list (string * Q)) :
  print_loop i n l `prefix_of` l /\
  (length (print_loop i n l) <= Z.to_nat (n - i))%nat /\
  Forall (fun p => ~ (p.2 == 0)%Q) (print_loop i n l) /\
  (print_loop i n l = l \/
   length (print_loop i n l) = Z.to_nat (n - i) \/
   exists p, l !! length (print_loop i n l) = Some p /\ (p.2 == 0)%Q).
Proof.
  revert i. induction l as [|p l IH]; intros i; cbn [print_loop].
  - split; [done |]. split; [simpl; lia |]. split; [constructor | by left].
  - destruct (Z.ltb_spec (n - 1) i) as [Hn|Hn]; cbn [orb].
    { split; [apply prefix_nil |]. split; [simpl; lia |]. split; [constructor |].
      right; left. simpl. lia. }
    destruct (Qeq_bool p.2 0) eqn:Hz.
    { split; [apply prefix_nil |]. split; [simpl; lia |]. split; [constructor |].
      right; right. exists p. split; [done | by apply Qeq_bool_iff]. }
    destruct (IH (i + 1)) as (Hpre & Hlen & Hnz & Hstop).
    split; [by apply prefix_cons |]. split; [simpl; lia |].
    split; [constructor; [by apply Qeq_bool_neq | done] |].
    destruct Hstop as [-> | [Hl | (q & Hq & Hq0)]].
    + by left.
    + right; left. simpl. lia.
    + right; right. by exists q.
Qed.

Lemma StronglySorted_weaken {A} (R R' : A -> A -> Prop) (l : list A) :
  (forall x y, R x y -> R' x y) -> StronglySorted R l -> StronglySorted R' l.
Proof.
  intros HR. induction 1 as [|x l Hl IH Hx]; constructor; [done |].
  eapply Forall_impl; [exact Hx | apply HR].
Qed.

(** C8 (the code as shipped). The static method reads the vocabulary from
    the global name [data], which [producer.py] never binds: every call
    raises [NameError], whatever the scores and [n] are. At the claim's
    example, the scores 0.9, 0.1, 0.0, 0.0 and n = 5, it raises [NameError]
    and does not report (a, 0.9), (b, 0.1). *)
Theorem print_class_from_prediction_unbound_data (predictions : list Q) (n : Z) :
  print_class_from_prediction module_data predictions n = Err NameError /\
  print_class_from_prediction module_data [0.9; 0.1; 0.0; 0.0]%Q 5 = Err NameError /\
  print_class_from_prediction module_data [0.9; 0.1; 0.0; 0.0]%Q 5 <>
    Ok [("a"%string, 0.9%Q); ("b"%string, 0.1%Q)].
Proof.
  split; [reflexivity |]. split; [reflexivity |].
  unfold module_data, print_class_from_prediction. discriminate.
Qed.

(** What the function does once the global name [data] is bound to a
    catalog whose vocabulary has no duplicates and is not longer than the
    score vector: it pairs each label with the score at the same position,
    sorts the pairs by descending score, keeps pairs of equal score in
    their original order, and reports a prefix of that ranking with at most
    [n] entries and no zero score, which stops only at the end of the
    ranking, after [n] entries, or in front of the first zero score. For
    the scores 0.9, 0.1, 0.0, 0.0, the vocabulary a, b, c, d and n = 5 it
    reports (a, 0.9), (b, 0.1). *)
Theorem top_predictions_ranked (self : DataSet) (predictions : list Q) (n : Z) :
  NoDup (classes self) -> (length (classes self) <= length predictions)%nat ->
  exists ranked out,
    print_class_from_prediction (Some self) predictions n = Ok out /\
    ranked ≡ₚ zip (classes self) predictions /\
    StronglySorted (fun a b => (b.2 <= a.2)%Q) ranked /\
    (forall q, List.filter (fun p => Qeq_bool p.2 q) ranked =
               List.filter (fun p => Qeq_bool p.2 q) (zip (classes self) predictions)) /\
    out `prefix_of` ranked /\
    (length out <= Z.to_nat n)%nat /\
    Forall (fun p => ~ (p.2 == 0)%Q) out /\
    (out = ranked \/ length out = Z.to_nat n \/
     exists p, ranked !! length out = Some p /\ (p.2 == 0)%Q) /\
    print_class_from_prediction (Some (vocabulary_ds ["a"; "b"; "c"; "d"]%string))
      [0.9; 0.1; 0.0; 0.0]%Q 5 =
      Ok [("a"%string, 0.9%Q); ("b"%string, 0.1%Q)].
Proof.
  intros Hnd Hlen. unfold print_class_from_prediction.
  pose proof (build_label_predictions_zip 0 (classes self) predictions [] Hnd) as Hb.
  change (Z.of_nat 0) with 0 in Hb.
  rewrite Hb; [| by intros c _ ?%elem_of_nil | lia].
  cbn [mbind result_bind app drop].
  set (items := zip (classes self) predictions).
  exists (py_sorted by_score_desc items), (print_loop 0 n (py_sorted by_score_desc items)).
  split; [done |]. split; [apply py_sorted_Permutation |]. split.
  { eapply StronglySorted_weaken;
      [| apply (py_sorted_StronglySorted by_score_desc by_score_desc_total by_score_desc_trans)].
    intros a b. apply Qle_bool_imp_le. }
  split.
  { intros q.
    rewrite !(List.filter_ext (fun p => Qeq_bool p.2 q) (ties by_score_desc (EmptyString, q)))
      by (intros p; by rewrite ties_by_score).
    apply py_sorted_stable, by_score_desc_trans. }
  pose proof (print_loop_spec 0 n (py_sorted by_score_desc items)) as H.
  rewrite Z.sub_0_r in H. destruct H as (H1 & H2 & H3 & H4). done.
Qed.

Lemma top_predictions_ranked_witness :
  exists out,
    print_class_from_prediction (Some (vocabulary_ds ["a"; "b"; "c"; "d"]%string))
      [0.1; 0.9; 0.5; 0.9]%Q 3 = Ok out /\
    (length out <= 3)%nat /\ Forall (fun p => ~ (p.2 == 0)%Q) out.
Proof.
  destruct (top_predictions_ranked (vocabulary_ds ["a"; "b"; "c"; "d"]%string)
              [0.1; 0.9; 0.5; 0.9]%Q 3)
    as (ranked & out & Hout & _ & _ & _ & _ & Hlen & Hnz & _).
  - apply (bool_decide_unpack _). vm_compute. exact I.
  - simpl. lia.
  - exists out. split; [exact Hout |]. split; [exact Hlen | exact Hnz].
Defined.

(** ** The generator on the example catalog *)

Lemma demo_ds_init : DataSet_init decimal_int demo_raw 3 None [2; 2] = Ok demo_ds.
Proof. vm_compute. reflexivity. Qed.

Lemma next_batch_all_or_nothing_witness :
  next_batch demo_glob string demo_image nat lcg demo_ds 2
    [ ["test"; "Bowling"; "v_Bowling_g05_c01"; "7"] ]%string 7%nat = (Err ValueError, 7%nat) /\
  exists x y,
    (next_batch demo_glob string demo_image nat lcg demo_ds 2 (take 2 (data demo_ds)) 7%nat).1
      = Ok (x, y) /\
    len x = 2 /\ len y = 2.
Proof.
  split.
  - apply (next_batch_all_or_nothing demo_glob string demo_image nat lcg demo_ds 2
             [ ["test"; "Bowling"; "v_Bowling_g05_c01"; "7"] ]%string 7%nat).
    vm_compute. reflexivity.
  - destruct (next_batch demo_glob string demo_image nat lcg demo_ds 2
                (take 2 (data demo_ds)) 7%nat) as [[[x y]|e] g'] eqn:Heq.
    + destruct (next_batch_all_or_nothing demo_glob string demo_image nat lcg demo_ds 2
                  (take 2 (data demo_ds)) 7%nat) as [_ H].
      destruct (H x y g' Heq) as (Hx & Hy & _).
      exists x, y. split; [reflexivity |]. split; [exact Hx | exact Hy].
    + vm_compute in Heq. discriminate Heq.
Defined.

(** C7 (as the claim is worded): the train partition of a catalog with test
    samples only is empty, and the generator over it is constructed without
    any error. *)
Lemma empty_partition_construction_counterexample :
  select_data test_only_ds "train" = Ok [] /\
  frame_generator test_only_ds 1 "train" = Ok (GenCreated test_only_ds 1 "train") /\
  ~ (forall self batch_size train_test,
       select_data self train_test = Ok [] ->
       is_Err (frame_generator self batch_size train_test)).
Proof.
  split; [reflexivity |]. split; [reflexivity |].
  intros H. destruct (H test_only_ds 1 "train"%string eq_refl) as [e He]. discriminate He.
Qed.

Lemma generator_resolves_partition_on_first_next_witness :
  select_data test_only_ds "train" = Ok [] /\
  gen_next demo_glob string demo_image nat lcg (GenCreated test_only_ds 1 "train") 7%nat =
    (Err ValueError, GenDone, 7%nat).
Proof.
  split; [reflexivity |].
  apply (generator_resolves_partition_on_first_next demo_glob string demo_image nat lcg
           test_only_ds 1 "train" 7%nat); [reflexivity | lia].
Defined.

Lemma other_partition_names_draw_test_witness :
  select_data demo_ds "Train" = Ok (test_partition demo_ds) /\
  exists x y g',
    gen_next three_frames_glob string demo_image nat lcg
      (GenCreated demo_ds 1 "validation") 7%nat =
      (Ok (x, y), GenRunning demo_ds 1 (test_partition demo_ds), g') /\
    len x = 1 /\ len y = 1.
Proof.
  split.
  - apply (other_partition_names_draw_test demo_glob string demo_image nat lcg
             demo_ds 1 "Train" 7%nat); [discriminate | repeat constructor; discriminate].
  - destruct (gen_next three_frames_glob string demo_image nat lcg
                (GenCreated demo_ds 1 "validation") 7%nat) as [[[[x y]|e] gen'] g'] eqn:Heq.
    + destruct (other_partition_names_draw_test three_frames_glob string demo_image nat lcg
                  demo_ds 1 "validation" 7%nat) as (_ & _ & _ & _ & _ & H);
        [discriminate | repeat constructor; discriminate |].
      destruct (H x y gen' g' Heq) as (Hgen & Hx & Hy & _).
      exists x, y, g'. split; [rewrite Hgen; reflexivity |]. split; [exact Hx | exact Hy].
    + vm_compute in Heq. discriminate Heq.
Defined.

(** * Further properties of the module *)

(** ** More on the error monad *)

Lemma py_getitem_error {A} (l : list A) (i : Z) (e : PyError) :
  py_getitem l i = Err e -> e = IndexError.
Proof.
  unfold py_getitem. destruct (_ <? 0); [by intros [= <-] |].
  destruct (l !! _); [done | by intros [= <-]].
Qed.

Lemma comprehension_Err {A B} (f : A -> result B) (l : list A) (e : PyError) :
  comprehension f l = Err e -> exists x, x ∈ l /\ f x = Err e.
Proof.
  induction l as [|x l IH]; simpl; [done |].
  destruct (f x) as [y|e'] eqn:Hx; simpl.
  - destruct (comprehension f l) as [ys|e'']; simpl; [done |].
    intros [= ->]. destruct IH as (x' & Hin & Hx'); [done |].
    exists x'. split; [by right | done].
  - intros [= ->]. exists x. split; [by left | done].
Qed.

Lemma comprehension_all_Err {A B} (f : A -> result B) (l : list A) (e : PyError) :
  l <> [] -> (forall x, x ∈ l -> f x = Err e) -> comprehension f l = Err e.
Proof.
  destruct l as [|x l]; [done |]. intros _ H. simpl. by rewrite (H x) by left.
Qed.

Lemma py_filter_Ok {A} (f : A -> result bool) (l ys : list A) :
  py_filter f l = Ok ys ->
  ys `sublist_of` l /\ Forall (fun y => f y = Ok true) ys /\
  Forall (fun x => is_Ok (f x)) l.
Proof.
  revert ys. induction l as [|x l IH]; intros ys; simpl.
  - intros [= <-]. by repeat constructor.
  - intros H. inv_bind H. rename a into b, a0 into zs.
    destruct (IH zs Ha0) as (Hs & Ht & Hall). subst ys.
    assert (is_Ok (f x)) by by eexists.
    split; [destruct b; by constructor |].
    split; [destruct b; [by constructor | done] | by constructor].
Qed.

Lemma py_filter_Err {A} (f : A -> result bool) (l : list A) (e : PyError) :
  py_filter f l = Err e -> exists x, x ∈ l /\ f x = Err e.
Proof.
  induction l as [|x l IH]; simpl; [done |].
  destruct (f x) as [b|e'] eqn:Hx; simpl.
  - destruct (py_filter f l) as [ys|e'']; simpl; [done |].
    intros [= ->]. destruct IH as (x' & Hin & Hx'); [done |].
    exists x'. split; [by right | done].
  - intros [= ->]. exists x. split; [by left | done].
Qed.

(** ** Rescale: order, count of candidates, non-positive targets *)

Lemma sublist_of_increasing_lookup {A} (out l : list A) (f : nat -> nat) :
  (forall i j : nat, (i < j)%nat -> (f i < f j)%nat) ->
  (forall k : nat, (k < length out)%nat -> out !! k = l !! f k) ->
  out `sublist_of` l.
Proof.
  revert l f. induction out as [|x out IH]; intros l f Hinc Hk.
  - apply sublist_nil_l.
  - assert (H0 : l !! f 0%nat = Some x) by (rewrite <- Hk; [done | simpl; lia]).
    rewrite <- (take_drop_middle l (f 0%nat) x H0).
    apply sublist_inserts_l, sublist_skip.
    apply (IH _ (fun k => f (S k) - S (f 0%nat))%nat).
    + intros i j Hij. pose proof (Hinc (S i) (S j)). pose proof (Hinc 0%nat (S i)). lia.
    + intros k Hlt. rewrite lookup_drop.
      pose proof (Hinc 0%nat (S k)).
      replace (S (f 0%nat) + (f (S k) - S (f 0%nat)))%nat with (f (S k)) by lia.
      rewrite <- Hk by (simpl; lia). done.
Qed.

(** The frames [rescale_list] keeps are frames of the input, in the order of
    the input. *)
Theorem rescale_list_sublist {A} (l : list A) (size : Z) :
  0 < size -> size <= len l ->
  exists out, rescale_list l size = Ok out /\ out `sublist_of` l.
Proof.
  intros Hsize Hle.
  destruct (rescale_list_lookup l size Hsize Hle) as (out & Ho & Hlen & Hk).
  exists out. split; [done |].
  assert (Hskip : 0 < len l / size) by (apply Z.div_str_pos; lia).
  apply (sublist_of_increasing_lookup out l (fun k => k * Z.to_nat (len l / size))%nat).
  - intros i j Hij. nia.
  - intros k Hlt. apply Hk. unfold len in Hlen. lia.
Qed.

Lemma rescale_list_sublist_witness :
  exists out, rescale_list ["f1"; "f2"; "f3"; "f4"; "f5"]%string 2 = Ok out /\
    out `sublist_of` ["f1"; "f2"; "f3"; "f4"; "f5"]%string.
Proof.
  apply (rescale_list_sublist ["f1"; "f2"; "f3"; "f4"; "f5"]%string 2);
    [lia | vm_compute; discriminate].
Defined.

(** The number of candidates is the number of multiples of skip below the
    length of the list, ceil(L / skip); when the target divides the length
    there are exactly [size] candidates and the final slice removes
    nothing. *)
Theorem rescale_candidates_count {A} (l : list A) (size : Z) :
  0 < size -> size <= len l ->
  exists cands,
    rescale_candidates l size = Ok cands /\
    len cands = (len l - 1) / (len l / size) + 1 /\
    (len l mod size = 0 -> len cands = size /\ rescale_list l size = Ok cands).
Proof.
  intros Hsize Hle.
  destruct (rescale_candidates_spec l size Hsize Hle) as (cands & Hc & Hlen & Hk).
  exists cands. split; [done |].
  set (skip := len l / size) in *.
  assert (Hskip : 0 < skip) by (apply Z.div_str_pos; lia).
  set (m := (len l - 1) / skip).
  assert (Hm0 : 0 <= m) by (apply Z.div_pos; lia).
  assert (Hm1 : m * skip <= len l - 1) by (rewrite Z.mul_comm; apply Z.mul_div_le; lia).
  assert (Hm2 : len l - 1 < (m + 1) * skip).
  { pose proof (Z.mul_succ_div_gt (len l - 1) skip Hskip). fold m in H. lia. }
  assert (Hcount : len cands = m + 1).
  { unfold len in *.
    assert (Hin : is_Some (cands !! Z.to_nat m)).
    { rewrite Hk. apply lookup_lt_is_Some. nia. }
    assert (Hout : cands !! Z.to_nat (m + 1) = None).
    { rewrite Hk. apply lookup_ge_None. nia. }
    apply lookup_lt_is_Some in Hin. apply lookup_ge_None in Hout. lia. }
  split; [done |]. intros Hmod.
  assert (Hdiv : len l = size * skip).
  { pose proof (Z.div_mod (len l) size ltac:(lia)). fold skip in H. lia. }
  assert (m = size - 1).
  { unfold m. rewrite Hdiv.
    replace (size * skip - 1) with ((size - 1) * skip + (skip - 1)) by lia.
    rewrite Z.div_add_l by lia. rewrite Z.div_small by lia. lia. }
  split; [lia |].
  unfold rescale_list. rewrite Hc. simpl. f_equal.
  rewrite py_slice_to_nonneg by lia. apply take_ge. unfold len in *. lia.
Qed.

Lemma rescale_candidates_count_witness :
  exists cands, rescale_candidates (seqZ 0 12) 4 = Ok cands /\
    len cands = 4 /\ rescale_list (seqZ 0 12) 4 = Ok cands.
Proof.
  destruct (rescale_candidates_count (seqZ 0 12) 4) as (cands & Hc & _ & H);
    [lia | vm_compute; discriminate |].
  destruct H as [Hl Hr]; [reflexivity |].
  exists cands. split; [exact Hc |]. split; [exact Hl | exact Hr].
Defined.

(** A negative target passes the assertion; the step of the range is then
    negative or zero: a non-empty list gives the empty list, the empty list
    raises [ValueError] (a range with step zero). *)
Theorem rescale_list_negative_size {A} (l : list A) (size : Z) :
  size < 0 ->
  (l <> [] -> rescale_list l size = Ok []) /\
  (l = [] -> rescale_list l size = Err ValueError).
Proof.
  intros Hsize. unfold rescale_list, rescale_candidates.
  pose proof (len_nonneg l) as Hl.
  destruct (Z.leb_spec size (len l)); [simpl | lia].
  unfold py_floordiv. destruct (Z.eqb_spec size 0); [lia | simpl].
  split.
  - intros Hne.
    assert (0 < len l) by (destruct l; [done | unfold len; simpl; lia]).
    assert (Hq : len l / size < 0).
    { pose proof (Z.div_mod (len l) size ltac:(lia)).
      pose proof (Z.mod_neg_bound (len l) size Hsize). nia. }
    unfold py_range, range_length.
    destruct (Z.eqb_spec (len l / size) 0); [lia |].
    destruct (Z.ltb_spec 0 (len l / size)); [lia |].
    destruct (Z.ltb_spec (len l) 0); [lia |]. simpl.
    unfold py_slice_to. destruct (size <? 0); by rewrite take_nil.
  - intros ->. by rewrite Z.div_0_l by lia.
Qed.

Lemma rescale_list_negative_size_witness :
  rescale_list ["f1"; "f2"; "f3"]%string (-2) = Ok [] /\
  rescale_list (@nil string) (-2) = Err ValueError.
Proof.
  split.
  - apply (rescale_list_negative_size ["f1"; "f2"; "f3"]%string (-2)); [lia | discriminate].
  - apply (rescale_list_negative_size (@nil string) (-2)); [lia | reflexivity].
Defined.

(** ** The catalog: malformed rows, class limits, idempotence, monotonicity *)

Lemma filter_none {A} (p : A -> bool) (l : list A) :
  (forall x, p x = false) -> List.filter p l = [].
Proof. intros H. induction l as [|x l IH]; simpl; [done |]. by rewrite H. Qed.

Lemma filter_sublist_impl {A} (p q : A -> bool) (l : list A) :
  (forall x, p x = true -> q x = true) ->
  List.filter p l `sublist_of` List.filter q l.
Proof.
  intros H. induction l as [|x l IH]; simpl; [done |].
  destruct (p x) eqn:Hp.
  - rewrite (H x Hp). by apply sublist_skip.
  - destruct (q x); [by apply sublist_cons | done].
Qed.

Lemma py_filter_all_true {A} (f : A -> result bool) (ys : list A) :
  Forall (fun y => f y = Ok true) ys -> py_filter f ys = Ok ys.
Proof.
  induction 1 as [|y ys Hy _ IH]; simpl; [done |]. by rewrite Hy, IH.
Qed.

Section CatalogMore.
Variable py_int : string -> result Z.

Lemma DataSet_init_inv (raw : list Row) (seq : Z) (nb : option Z) (shape : list Z)
    (ds : DataSet) :
  DataSet_init py_int raw seq nb shape = Ok ds ->
  exists cs d,
    get_classes (mkDataSet seq nb 300 raw [] []) = Ok cs /\
    py_filter (sample_filter py_int (mkDataSet seq nb 300 raw cs [])) raw = Ok d /\
    ds = mkDataSet seq nb 300 d cs shape.
Proof.
  unfold DataSet_init. intros H. inv_bind H. rename a into cs, a0 into d.
  exists cs, d. split; [done |]. split; [exact Ha0 | by subst ds].
Qed.

Lemma sample_filter_true (self : DataSet) (x : Row) :
  sample_filter py_int self x = Ok true ->
  exists c3 n c1,
    x !! 3%nat = Some c3 /\ py_int c3 = Ok n /\ x !! 1%nat = Some c1 /\
    seq_length self <= n /\ n <= max_frames self /\ c1 ∈ classes self.
Proof.
  unfold sample_filter. intros H.
  destruct (py_getitem x 3) as [c3|] eqn:E3; [simpl in H | done].
  destruct (py_int c3) as [n|] eqn:En; [simpl in H | done].
  destruct (Z.leb_spec (seq_length self) n); [simpl in H | done].
  destruct (Z.leb_spec n (max_frames self)); [simpl in H | done].
  destruct (py_getitem x 1) as [c1|] eqn:E1; [simpl in H | done].
  injection H as H. apply bool_decide_eq_true in H.
  exists c3, n, c1. repeat split; try done.
  - by apply (py_getitem_nat x 3).
  - by apply (py_getitem_nat x 1).
Qed.

(** A row with fewer than four cells (an empty line of the manifest, for
    instance) makes the construction fail; when a row has fewer than two
    cells the exception is the [IndexError] of [item[1]] in [get_classes]. *)
Theorem init_fails_on_short_row (raw : list Row) (seq : Z) (nb : option Z)
    (shape : list Z) (x : Row) :
  x ∈ raw -> (length x < 4)%nat ->
  is_Err (DataSet_init py_int raw seq nb shape) /\
  ((length x < 2)%nat -> DataSet_init py_int raw seq nb shape = Err IndexError).
Proof.
  intros Hin Hlen. split.
  - destruct (DataSet_init py_int raw seq nb shape) as [ds|e] eqn:Hinit; [| by eexists].
    apply DataSet_init_inv in Hinit as (cs & d & _ & Hf & _).
    apply py_filter_Ok in Hf as (_ & _ & Hall).
    rewrite Forall_forall in Hall. destruct (Hall x Hin) as [b Hb].
    unfold sample_filter in Hb. rewrite (py_getitem_nonneg x 3) in Hb by lia.
    change (Z.to_nat 3) with 3%nat in Hb.
    rewrite (lookup_ge_None_2 x 3) in Hb by lia. done.
  - intros Hlen2. unfold DataSet_init, get_classes. cbn [data].
    destruct (comprehension (fun item : Row => py_getitem item 1) raw) as [ls|e] eqn:Hc.
    + apply comprehension_Forall2 in Hc.
      apply list_elem_of_lookup in Hin as [k Hk].
      destruct (Forall2_lookup_l _ _ _ k _ Hc Hk) as (c & _ & Hget).
      apply (py_getitem_nat x 1) in Hget. apply lookup_lt_Some in Hget. lia.
    + apply comprehension_Err in Hc as (x' & _ & Hx'). apply py_getitem_error in Hx'.
      by subst e.
Qed.

(** A class limit of 0 is a limit ([is not None]): the vocabulary is empty
    and so is the filtered sample set. *)
Theorem init_class_limit_zero (raw : list Row) (seq : Z) (shape : list Z) :
  Forall (well_formed py_int) raw ->
  DataSet_init py_int raw seq (Some 0) shape = Ok (mkDataSet seq (Some 0) 300 [] [] shape).
Proof.
  intros Hwf. rewrite Forall_forall in Hwf.
  destruct (DataSet_init_Ok py_int raw seq (Some 0) shape Hwf) as (full & _ & _ & Hinit).
  cbv zeta in Hinit. rewrite Hinit. unfold py_slice_to. simpl.
  rewrite filter_none; [done |].
  intros x. unfold passes. cbn [classes].
  destruct (frame_count py_int x), (class_label x); try done.
  rewrite bool_decide_false by (by intros ?%elem_of_nil). apply andb_false_r.
Qed.

(** A negative class limit cuts classes off the end of the sorted
    vocabulary: [-1] drops the last class. *)
Theorem init_negative_class_limit (raw : list Row) (seq limit : Z) (shape : list Z) :
  Forall (well_formed py_int) raw -> limit < 0 ->
  exists ds full,
    DataSet_init py_int raw seq (Some limit) shape = Ok ds /\
    StronglySorted str_lt full /\
    (forall c, c ∈ full <-> exists x, x ∈ raw /\ class_label x = Some c) /\
    classes ds = take (length full - Z.to_nat (- limit)) full.
Proof.
  intros Hwf Hlim. rewrite Forall_forall in Hwf.
  destruct (DataSet_init_Ok py_int raw seq (Some limit) shape Hwf) as (full & Hs & Hin & Hinit).
  cbv zeta in Hinit. eexists _, full. split; [exact Hinit |].
  split; [done |]. split; [done |]. cbn [classes]. unfold py_slice_to.
  destruct (Z.ltb_spec limit 0); [| lia]. f_equal. unfold len. lia.
Qed.

(** The filter is idempotent: cleaning a constructed catalog again keeps
    every sample. *)
Theorem clean_data_idempotent (raw : list Row) (seq : Z) (nb : option Z)
    (shape : list Z) (ds : DataSet) :
  DataSet_init py_int raw seq nb shape = Ok ds ->
  clean_data py_int ds = Ok (data ds).
Proof.
  intros (cs & d & _ & Hf & ->)%DataSet_init_inv.
  apply py_filter_Ok in Hf as (_ & Htrue & _).
  unfold clean_data. cbn [data]. by apply py_filter_all_true.
Qed.

(** Raising [seq_length] leaves the vocabulary as it is and can only remove
    samples. *)
Theorem init_monotone_in_seq_length (raw : list Row) (seq seq' : Z) (nb : option Z)
    (shape : list Z) :
  Forall (well_formed py_int) raw -> seq <= seq' ->
  exists ds ds',
    DataSet_init py_int raw seq nb shape = Ok ds /\
    DataSet_init py_int raw seq' nb shape = Ok ds' /\
    classes ds' = classes ds /\
    data ds' `sublist_of` data ds.
Proof.
  intros Hwf Hle. rewrite Forall_forall in Hwf.
  destruct (DataSet_init_Ok py_int raw seq nb shape Hwf) as (full & _ & _ & Hinit).
  destruct (DataSet_init_Ok py_int raw seq' nb shape Hwf) as (full' & _ & _ & Hinit').
  cbv zeta in Hinit, Hinit'.
  destruct (DataSet_init_inv _ _ _ _ _ Hinit) as (cs & d & Hg & _ & Heq).
  destruct (DataSet_init_inv _ _ _ _ _ Hinit') as (cs' & d' & Hg' & _ & Heq').
  change (get_classes (mkDataSet seq' nb 300 raw [] []))
    with (get_classes (mkDataSet seq nb 300 raw [] [])) in Hg'.
  assert (cs' = cs) as -> by congruence.
  injection Heq as _ Hcls. injection Heq' as _ Hcls'.
  eexists _, _. split; [exact Hinit |]. split; [exact Hinit' |].
  cbn [classes data]. split; [congruence |].
  rewrite Hcls, Hcls'. apply filter_sublist_impl.
  intros x. unfold passes. cbn [seq_length max_frames classes].
  destruct (frame_count py_int x) as [n|], (class_label x) as [c|]; try done.
  intros [[H1%Z.leb_le H2]%andb_prop H3]%andb_prop.
  rewrite H2, H3, !andb_true_r. apply Z.leb_le. lia.
Qed.
End CatalogMore.

Lemma init_fails_on_short_row_witness :
  is_Err (DataSet_init decimal_int (demo_raw ++ [[]]) 3 None [2; 2]) /\
  DataSet_init decimal_int (demo_raw ++ [[]]) 3 None [2; 2] = Err IndexError.
Proof.
  assert (Hin : @nil string ∈ demo_raw ++ [[]])
    by (apply elem_of_app; right; apply list_elem_of_singleton; reflexivity).
  destruct (init_fails_on_short_row decimal_int (demo_raw ++ [[]]) 3 None [2; 2] []
              Hin ltac:(simpl; lia)) as [H1 H2].
  split; [exact H1 | apply H2; simpl; lia].
Defined.

Lemma init_class_limit_zero_witness :
  DataSet_init decimal_int demo_raw 3 (Some 0) [2; 2] =
    Ok (mkDataSet 3 (Some 0) 300 [] [] [2; 2]).
Proof.
  apply (init_class_limit_zero decimal_int demo_raw 3 [2; 2] demo_raw_well_formed).
Defined.

Lemma init_negative_class_limit_witness :
  exists ds full,
    DataSet_init decimal_int demo_raw 3 (Some (-1)) [2; 2] = Ok ds /\
    classes ds = take (length full - 1) full.
Proof.
  destruct (init_negative_class_limit decimal_int demo_raw 3 (-1) [2; 2]
              demo_raw_well_formed ltac:(lia)) as (ds & full & Hinit & _ & _ & Hcls).
  exists ds, full. split; [exact Hinit | exact Hcls].
Defined.

Lemma clean_data_idempotent_witness :
  clean_data decimal_int demo_ds = Ok (data demo_ds).
Proof.
  apply (clean_data_idempotent decimal_int demo_raw 3 None [2; 2] demo_ds).
  vm_compute. reflexivity.
Defined.

Lemma init_monotone_in_seq_length_witness :
  exists ds ds',
    DataSet_init decimal_int demo_raw 3 None [2; 2] = Ok ds /\
    DataSet_init decimal_int demo_raw 4 None [2; 2] = Ok ds' /\
    classes ds' = classes ds /\ data ds' `sublist_of` data ds.
Proof.
  apply (init_monotone_in_seq_length decimal_int demo_raw 3 4 None [2; 2]
           demo_raw_well_formed).
  lia.
Defined.

(** ** The catalog: partitions and labels of the filtered samples *)

Lemma List_filter_sublist {A} (p : A -> bool) (l : list A) :
  List.filter p l `sublist_of` l.
Proof.
  induction l as [|x l IH]; simpl; [done |].
  destruct (p x); [by apply sublist_skip | by apply sublist_cons].
Qed.

Lemma get_class_one_hot_present (self : DataSet) (label : string) :
  label ∈ classes self ->
  exists (i : nat) (v : list Z),
    classes self !! i = Some label /\
    get_class_one_hot self label = Ok v /\
    len v = len (classes self) /\
    (forall j : nat, Z.of_nat j < len (classes self) ->
       v !! j = Some (if decide (j = i) then 1 else 0)) /\
    List.filter (Z.eqb 1) v = [1].
Proof.
  intros Hin.
  destruct (list_index_from_spec 0 (classes self) label Hin) as (i & Hi & Hl & _).
  rewrite Z.add_0_l in Hi. fold (list_index (classes self) label) in Hi.
  pose proof (lookup_lt_Some _ _ _ Hl) as Hlt.
  destruct (to_categorical_spec i (len (classes self))) as (v & Hv & Hlen & Hj & Hone);
    [unfold len; lia |].
  exists i, v. split; [done |].
  unfold get_class_one_hot. rewrite Hi. simpl. rewrite Hv. simpl.
  by rewrite bool_decide_true by done.
Qed.

Lemma get_class_one_hot_absent (self : DataSet) (label : string) :
  label ∉ classes self -> get_class_one_hot self label = Err ValueError.
Proof.
  intros Hnin. unfold get_class_one_hot, list_index.
  by rewrite list_index_from_absent.
Qed.

(** [get_class_one_hot] succeeds exactly on the labels of the vocabulary;
    on any other label it raises the [ValueError] of [list.index]. *)
Theorem get_class_one_hot_defined_iff (self : DataSet) (label : string) :
  (is_Ok (get_class_one_hot self label) <-> label ∈ classes self) /\
  (label ∉ classes self -> get_class_one_hot self label = Err ValueError).
Proof.
  split; [| apply get_class_one_hot_absent]. split.
  - intros [v Hv]. destruct (decide (label ∈ classes self)) as [|Hnin]; [done |].
    rewrite get_class_one_hot_absent in Hv by done. done.
  - intros (i & v & _ & Hv & _)%get_class_one_hot_present. by exists v.
Qed.

Lemma get_class_one_hot_defined_iff_witness :
  get_class_one_hot demo_ds "Skiing" = Err ValueError.
Proof.
  apply (get_class_one_hot_defined_iff demo_ds "Skiing").
  apply (bool_decide_unpack _). vm_compute. exact I.
Defined.

Section CatalogSamples.
Variable py_int : string -> result Z.

Lemma init_rows_passed (raw : list Row) (seq : Z) (nb : option Z) (shape : list Z)
    (ds : DataSet) :
  DataSet_init py_int raw seq nb shape = Ok ds ->
  Forall (fun x : Row => (4 <= length x)%nat /\
            exists c1, x !! 1%nat = Some c1 /\ c1 ∈ classes ds) (data ds).
Proof.
  intros (cs & d & _ & Hf & ->)%DataSet_init_inv.
  apply py_filter_Ok in Hf as (_ & Htrue & _). cbn [data classes].
  eapply Forall_impl; [exact Htrue |]. intros x Hx.
  apply sample_filter_true in Hx as (c3 & n & c1 & H3 & _ & H1 & _ & _ & Hc).
  apply lookup_lt_Some in H3. split; [lia |]. by exists c1.
Qed.

(** On a constructed catalog [split_train_test] never raises. The two
    groups are the samples marked "train" and the samples marked "test", in
    the order of the catalog; no sample is in both, and a sample marked
    otherwise is in neither. *)
Theorem split_train_test_of_catalog (raw : list Row) (seq : Z) (nb : option Z)
    (shape : list Z) (ds : DataSet) :
  DataSet_init py_int raw seq nb shape = Ok ds ->
  exists train test,
    split_train_test ds = Ok (train, test) /\
    train `sublist_of` data ds /\ test `sublist_of` data ds /\
    (forall x, x ∈ train <-> x ∈ data ds /\ x !! 0%nat = Some "train"%string) /\
    (forall x, x ∈ test <-> x ∈ data ds /\ x !! 0%nat = Some "test"%string) /\
    (forall x, x ∈ train -> x ∉ test).
Proof.
  intros Hinit. apply init_rows_passed in Hinit.
  assert (Hne : Forall (fun x : Row => x <> []) (data ds)).
  { eapply Forall_impl; [exact Hinit |]. intros [|c x] [Hlen _]; [simpl in Hlen; lia | done]. }
  rewrite (split_train_test_pure ds Hne). eexists _, _. split; [done |].
  split; [apply List_filter_sublist |]. split; [apply List_filter_sublist |].
  assert (Hmem : forall name (x : Row),
            x ∈ List.filter (fun x : Row => bool_decide (x !! 0%nat = Some name)) (data ds)
            <-> x ∈ data ds /\ x !! 0%nat = Some name).
  { intros name x. rewrite list_elem_of_In, filter_In, <- list_elem_of_In.
    by rewrite bool_decide_eq_true. }
  split; [apply Hmem |]. split; [apply Hmem |].
  intros x [_ H1]%Hmem [_ H2]%Hmem. congruence.
Qed.

(** Every sample of a constructed catalog has a class cell that
    [get_class_one_hot] accepts: labelling a sample of the catalog never
    raises, and the label vector has the length of the vocabulary. *)
Theorem one_hot_of_catalog_sample (raw : list Row) (seq : Z) (nb : option Z)
    (shape : list Z) (ds : DataSet) (x : Row) :
  DataSet_init py_int raw seq nb shape = Ok ds -> x ∈ data ds ->
  exists c v,
    py_getitem x 1 = Ok c /\ get_class_one_hot ds c = Ok v /\
    len v = len (classes ds).
Proof.
  intros Hinit Hx. apply init_rows_passed in Hinit.
  rewrite Forall_forall in Hinit. destruct (Hinit x Hx) as (_ & c & Hc & Hin).
  destruct (get_class_one_hot_present ds c Hin) as (i & v & _ & Hv & Hlen & _).
  exists c, v. split; [by apply (py_getitem_nat x 1) | done].
Qed.
End CatalogSamples.

Lemma split_train_test_of_catalog_witness :
  exists train test,
    split_train_test demo_ds = Ok (train, test) /\
    (forall x, x ∈ train -> x ∉ test).
Proof.
  destruct (split_train_test_of_catalog decimal_int demo_raw 3 None [2; 2] demo_ds)
    as (train & test & Hs & _ & _ & _ & _ & Hd).
  - vm_compute. reflexivity.
  - exists train, test. split; [exact Hs | exact Hd].
Defined.

Lemma one_hot_of_catalog_sample_witness :
  exists c v,
    py_getitem ["train"; "Bowling"; "v_Bowling_g02_c03"; "3"]%string 1 = Ok c /\
    get_class_one_hot demo_ds c = Ok v /\ len v = len (classes demo_ds).
Proof.
  apply (one_hot_of_catalog_sample decimal_int demo_raw 3 None [2; 2] demo_ds).
  - vm_compute. reflexivity.
  - cbn [data demo_ds]. rewrite !elem_of_cons. auto.
Defined.

(** ** Frames of a sample *)

#[global] Instance str_le_trans : Transitive str_le.
Proof. intros a b c. apply string_leb_trans. Qed.

#[global] Instance str_le_antisym : AntiSymm (=) str_le.
Proof. intros a b. apply String.leb_antisym. Qed.

Lemma py_sorted_strings_Permutation (l l' : list string) :
  l ≡ₚ l' -> py_sorted String.leb l = py_sorted String.leb l'.
Proof.
  intros Hp. apply (StronglySorted_unique str_le).
  - apply (py_sorted_StronglySorted String.leb String.leb_total string_leb_trans).
  - apply (py_sorted_StronglySorted String.leb String.leb_total string_leb_trans).
  - by rewrite !py_sorted_Permutation.
Qed.

Lemma ends_with_slash_append (a b : string) :
  b <> EmptyString -> ends_with_slash (String.append a b) = ends_with_slash b.
Proof.
  intros Hb. induction a as [|c a IH]; [done |]. simpl.
  destruct (String.append a b) eqn:E; [| done].
  destruct a; simpl in E; [by subst | done].
Qed.

Lemma string_append_assoc (a b c : string) :
  String.append (String.append a b) c = String.append a (String.append b c).
Proof.
  induction a as [|x a IH]; [done |].
  change (String x (String.append (String.append a b) c)
          = String x (String.append a (String.append b c))).
  by rewrite IH.
Qed.

Lemma os_path_join_snoc (a : string) (p : list string) (b : string) :
  os_path_join a (p ++ [b]) =
    if starts_with_slash b then b
    else if bool_decide (os_path_join a p = EmptyString) || ends_with_slash (os_path_join a p)
         then String.append (os_path_join a p) b
         else String.append (os_path_join a p) (String.append "/" b).
Proof. unfold os_path_join. by rewrite foldl_snoc. Qed.

Section FramesFacts.
Variable glob : string -> list string.

(** A sample row with fewer than three cells raises [IndexError]; on any
    other row the frames are the paths [glob] finds for one pattern, each as
    often as [glob] yields it, in lexicographic order. *)
Theorem get_frames_for_sample_sorted (sample : Row) :
  ((length sample < 3)%nat -> get_frames_for_sample glob sample = Err IndexError) /\
  ((3 <= length sample)%nat ->
   exists pattern frames,
     get_frames_for_sample glob sample = Ok frames /\
     frames ≡ₚ glob pattern /\ StronglySorted str_le frames).
Proof.
  unfold get_frames_for_sample. split.
  - intros Hlen.
    destruct (py_getitem sample 0) as [s0|e0] eqn:E0;
      [| by rewrite (py_getitem_error _ _ _ E0)].
    destruct (py_getitem sample 1) as [s1|e1] eqn:E1;
      [| by rewrite (py_getitem_error _ _ _ E1)].
    destruct (py_getitem sample 2) as [s2|e2] eqn:E2;
      [| by rewrite (py_getitem_error _ _ _ E2)].
    apply (py_getitem_nat sample 2), lookup_lt_Some in E2. lia.
  - intros Hlen.
    destruct (lookup_lt_is_Some_2 sample 0 ltac:(lia)) as [s0 H0].
    destruct (lookup_lt_is_Some_2 sample 1 ltac:(lia)) as [s1 H1].
    destruct (lookup_lt_is_Some_2 sample 2 ltac:(lia)) as [s2 H2].
    apply (py_getitem_nat sample 0) in H0. apply (py_getitem_nat sample 1) in H1.
    apply (py_getitem_nat sample 2) in H2.
    change (Z.of_nat 0) with 0 in H0. change (Z.of_nat 1) with 1 in H1.
    change (Z.of_nat 2) with 2 in H2. rewrite H0, H1, H2.
    cbn [mbind result_bind]. eexists _, _. split; [done |].
    split; [apply py_sorted_Permutation |].
    apply (py_sorted_StronglySorted String.leb String.leb_total string_leb_trans).
Qed.

(** The pattern handed to [glob]: for cells that are not empty and neither
    begin nor end with a slash it is
    [datasets/ucf101/<split>/<class>/<clip>*jpg]; a clip cell that begins
    with a slash replaces everything before it, so the pattern is the
    absolute path [<clip>*jpg]. *)
Theorem get_frames_for_sample_pattern (s0 s1 s2 : string) (rest : list string) :
  (s0 <> EmptyString -> s1 <> EmptyString ->
   starts_with_slash s0 = false -> starts_with_slash s1 = false ->
   starts_with_slash s2 = false ->
   ends_with_slash s0 = false -> ends_with_slash s1 = false ->
   get_frames_for_sample glob (s0 :: s1 :: s2 :: rest) =
     Ok (py_sorted String.leb
           (glob (String.append "datasets/ucf101/"
                    (String.append s0 (String.append "/"
                       (String.append s1 (String.append "/"
                          (String.append s2 "*jpg"))))))))) /\
  (starts_with_slash s2 = true ->
   get_frames_for_sample glob (s0 :: s1 :: s2 :: rest) =
     Ok (py_sorted String.leb (glob (String.append s2 "*jpg")))).
Proof.
  unfold get_frames_for_sample.
  change (py_getitem (s0 :: s1 :: s2 :: rest) 0) with (Ok s0).
  change (py_getitem (s0 :: s1 :: s2 :: rest) 1) with (Ok s1).
  change (py_getitem (s0 :: s1 :: s2 :: rest) 2) with (Ok s2).
  cbn [mbind result_bind].
  change ["ucf101"; s0; s1; String.append s2 "*jpg"]%string
    with (["ucf101"; s0; s1]%string ++ [String.append s2 "*jpg"]).
  rewrite os_path_join_snoc.
  split.
  - intros Hn0 Hn1 Hs0 Hs1 Hs2 He0 He1.
    assert (J1 : os_path_join "datasets" ["ucf101"; s0]%string
                 = String.append "datasets/ucf101/" s0).
    { change ["ucf101"; s0]%string with (["ucf101"]%string ++ [s0]).
      rewrite os_path_join_snoc, Hs0. reflexivity. }
    assert (J2 : os_path_join "datasets" ["ucf101"; s0; s1]%string
                 = String.append "datasets/ucf101/"
                     (String.append s0 (String.append "/" s1))).
    { change ["ucf101"; s0; s1]%string with (["ucf101"; s0]%string ++ [s1]).
      rewrite os_path_join_snoc, Hs1, J1.
      rewrite ends_with_slash_append, He0 by done.
      rewrite bool_decide_false by done. cbn [orb].
      by rewrite string_append_assoc. }
    assert (Hs2' : starts_with_slash (String.append s2 "*jpg") = false)
      by (destruct s2; [done | exact Hs2]).
    rewrite Hs2', J2.
    rewrite ends_with_slash_append by (by destruct s0).
    rewrite ends_with_slash_append by done.
    rewrite ends_with_slash_append, He1 by done.
    rewrite bool_decide_false by done. cbn [orb].
    by rewrite !string_append_assoc.
  - intros Hs2.
    assert (Hs2' : starts_with_slash (String.append s2 "*jpg") = true)
      by (destruct s2; [done | exact Hs2]).
    by rewrite Hs2'.
Qed.
End FramesFacts.

(** The order in which the file system yields the paths does not matter:
    two listings that agree up to order give the same frames. *)
Theorem get_frames_for_sample_order_independent (glob glob' : string -> list string)
    (sample : Row) :
  (forall pattern, glob pattern ≡ₚ glob' pattern) ->
  get_frames_for_sample glob sample = get_frames_for_sample glob' sample.
Proof.
  intros Hp. unfold get_frames_for_sample.
  destruct (py_getitem sample 0) as [s0|]; [simpl | done].
  destruct (py_getitem sample 1) as [s1|]; [simpl | done].
  destruct (py_getitem sample 2) as [s2|]; [simpl | done].
  f_equal. apply py_sorted_strings_Permutation, Hp.
Qed.

Lemma get_frames_for_sample_sorted_witness :
  get_frames_for_sample demo_glob ["train"; "Archery"]%string = Err IndexError /\
  exists pattern frames,
    get_frames_for_sample demo_glob ["train"; "Archery"; "v_Archery_g01_c01"; "4"]%string
      = Ok frames /\
    frames ≡ₚ demo_glob pattern /\ StronglySorted str_le frames.
Proof.
  split.
  - apply (get_frames_for_sample_sorted demo_glob ["train"; "Archery"]%string). simpl. lia.
  - apply (get_frames_for_sample_sorted demo_glob
             ["train"; "Archery"; "v_Archery_g01_c01"; "4"]%string). simpl. lia.
Defined.

Lemma get_frames_for_sample_pattern_witness :
  get_frames_for_sample demo_glob ["train"; "Archery"; "v_Archery_g01_c01"; "4"]%string =
    Ok (py_sorted String.leb
          (demo_glob "datasets/ucf101/train/Archery/v_Archery_g01_c01*jpg")) /\
  get_frames_for_sample demo_glob ["train"; "Archery"; "/tmp/x"]%string =
    Ok (py_sorted String.leb (demo_glob "/tmp/x*jpg")).
Proof.
  split.
  - apply (get_frames_for_sample_pattern demo_glob "train" "Archery" "v_Archery_g01_c01"
             ["4"%string]); (discriminate || reflexivity).
  - apply (get_frames_for_sample_pattern demo_glob "train" "Archery" "/tmp/x" []).
    reflexivity.
Defined.

Lemma get_frames_for_sample_order_independent_witness :
  get_frames_for_sample demo_glob ["train"; "Bowling"; "v_Bowling_g02_c03"; "3"]%string =
  get_frames_for_sample (fun p => reverse (demo_glob p))
    ["train"; "Bowling"; "v_Bowling_g02_c03"; "3"]%string.
Proof.
  apply (get_frames_for_sample_order_independent demo_glob (fun p => reverse (demo_glob p))).
  intros pattern. symmetry. apply reverse_Permutation.
Defined.

(** ** Sampling the whole population *)

Lemma omap_id_Some {A} (l : list A) : omap id (Some <$> l) = l.
Proof. induction l as [|x l IH]; [done |]. csimpl. by f_equal. Qed.

Section SampleAll.
Variable Rng : Type.
Variable getrandbits : Rng -> nat * Rng.

(** Drawing as many samples as the population has returns every element of
    the population exactly once: a batch of the size of the partition is a
    permutation of the partition. *)
Lemma random_sample_all_is_permutation {A} (population : list A) (g : Rng) :
  exists samples,
    (random_sample Rng getrandbits population (len population) g).1 = Ok samples /\
    samples ≡ₚ population.
Proof.
  destruct (random_sample_spec Rng getrandbits population (len population) g)
    as (idxs & samples & Hs & Hl & Hnd & Hf); [apply len_nonneg | lia |].
  exists samples. split; [done |].
  set (n := length population).
  assert (Hperm : idxs ≡ₚ seq 0 n).
  { apply submseteq_length_Permutation.
    - apply NoDup_submseteq; [done |]. intros i [k Hk]%list_elem_of_lookup.
      destruct (Forall2_lookup_l _ _ _ k _ Hf Hk) as (s & _ & Hi).
      apply lookup_lt_Some in Hi. apply elem_of_seq. lia.
    - rewrite length_seq. unfold len in Hl. lia. }
  assert (Hsome : Some <$> samples = (fun i => population !! i) <$> idxs).
  { apply list_eq. intros k. rewrite !list_lookup_fmap.
    destruct (idxs !! k) as [i|] eqn:Hi.
    - destruct (Forall2_lookup_l _ _ _ k _ Hf Hi) as (s & -> & Hp). simpl. by rewrite Hp.
    - apply lookup_ge_None in Hi. rewrite (Forall2_length _ _ _ Hf) in Hi.
      by rewrite lookup_ge_None_2. }
  assert (Hpop : Some <$> population = (fun i => population !! i) <$> seq 0 n).
  { apply list_eq. intros i. rewrite !list_lookup_fmap.
    destruct (decide (i < n)%nat).
    - rewrite lookup_seq_lt by done. simpl.
      destruct (lookup_lt_is_Some_2 population i ltac:(done)) as [a Ha]. by rewrite Ha.
    - rewrite lookup_seq_ge by lia. by rewrite lookup_ge_None_2 by (unfold n in *; lia). }
  rewrite <- (omap_id_Some samples), <- (omap_id_Some population), Hsome, Hpop.
  by rewrite Hperm.
Qed.
End SampleAll.

(** ** The batch generator: shapes, degenerate sizes, termination *)

Lemma rescale_list_Ok_len {A} (l out : list A) (size : Z) :
  0 <= size -> rescale_list l size = Ok out -> len out = size.
Proof.
  intros Hsize H. destruct (decide (size = 0)) as [->|Hne].
  { by rewrite rescale_list_zero in H. }
  destruct (Z.lt_ge_cases (len l) size) as [Hlt|Hge].
  { by rewrite rescale_list_short in H. }
  destruct (rescale_list_lookup l size) as (out' & Ho & Hlen & _); [lia.. |].
  congruence.
Qed.

Section GeneratorMore.
Variable glob : string -> list string.
Variable Image : Type.
Variable process_image : string -> list Z -> result Image.
Variable Rng : Type.
Variable getrandbits : Rng -> nat * Rng.

Abbreviation next_batch'' := (next_batch glob Image process_image Rng getrandbits).
Abbreviation make_sample'' := (make_sample glob Image process_image).
Abbreviation gen_next'' := (gen_next glob Image process_image Rng getrandbits).

Lemma get_frames_for_sample_total (sample : Row) :
  (3 <= length sample)%nat -> is_Ok (get_frames_for_sample glob sample).
Proof.
  intros Hlen. unfold get_frames_for_sample.
  destruct (lookup_lt_is_Some_2 sample 0 ltac:(lia)) as [s0 H0].
  destruct (lookup_lt_is_Some_2 sample 1 ltac:(lia)) as [s1 H1].
  destruct (lookup_lt_is_Some_2 sample 2 ltac:(lia)) as [s2 H2].
  apply (py_getitem_nat sample 0) in H0. apply (py_getitem_nat sample 1) in H1.
  apply (py_getitem_nat sample 2) in H2.
  change (Z.of_nat 0) with 0 in H0. change (Z.of_nat 1) with 1 in H1.
  change (Z.of_nat 2) with 2 in H2. rewrite H0, H1, H2. by eexists.
Qed.

Lemma make_sample_shape (self : DataSet) (sample : Row) (xs : list Image) (yv : list Z) :
  0 <= seq_length self ->
  make_sample'' self sample = Ok (xs, yv) ->
  len xs = seq_length self /\
  len yv = len (classes self) /\ List.filter (Z.eqb 1) yv = [1].
Proof.
  intros Hseq H. unfold make_sample in H. inv_bind H.
  rename a into frames, a0 into sampled, a1 into sequence, a2 into c, a3 into y.
  subst xs yv.
  apply rescale_list_Ok_len in Ha0; [| done].
  apply comprehension_length in Ha1.
  split; [unfold len in *; lia |].
  destruct (decide (c ∈ classes self)) as [Hin|Hnin].
  - destruct (get_class_one_hot_present self c Hin) as (i & v & _ & Hv & Hlen & _ & Hone).
    rewrite Hv in Ha3. by injection Ha3 as <-.
  - by rewrite get_class_one_hot_absent in Ha3.
Qed.

(** The shape of a batch: every sequence of [x] has [seq_length] images and
    every row of [y] is a one-hot vector over the vocabulary. *)
Theorem next_batch_shape (self : DataSet) (batch_size : Z) (data : list Row)
    (g g' : Rng) (x : list (list Image)) (y : list (list Z)) :
  next_batch'' self batch_size data g = (Ok (x, y), g') ->
  Forall (fun xs => len xs = seq_length self) x /\
  Forall (fun yv => len yv = len (classes self) /\ List.filter (Z.eqb 1) yv = [1]) y.
Proof.
  intros H.
  assert (Hseq : 0 <= seq_length self).
  { unfold next_batch in H.
    destruct (np_zeros_cases (batch_size :: seq_length self :: image_shape self))
      as [[_ Hpos]|H1]; [| by rewrite H1 in H].
    by apply Forall_cons in Hpos as [_ [Hpos _]%Forall_cons]. }
  apply next_batch_Ok in H as (Hx & Hy & _ & idxs & samples & _ & _ & _ & _ & Hm).
  assert (Hall : Forall (fun xy : list Image * list Z =>
                   len xy.1 = seq_length self /\
                   len xy.2 = len (classes self) /\ List.filter (Z.eqb 1) xy.2 = [1])
                 (zip x y)).
  { apply Forall_forall. intros [xs yv] [k Hk]%list_elem_of_lookup.
    destruct (Forall2_lookup_r _ _ _ k _ Hm Hk) as (s & _ & Hs).
    by apply (make_sample_shape self s). }
  unfold len in Hx, Hy.
  rewrite <- (fst_zip x y) at 1 by lia. rewrite <- (snd_zip x y) at 2 by lia.
  rewrite !Forall_fmap. split; (eapply Forall_impl; [exact Hall |]); by intros [xs yv] (? & ? & ?).
Qed.

(** A batch size of 0 is accepted: every call yields the empty batch and
    leaves the random generator untouched, also over an empty partition. *)
Theorem next_batch_size_zero (self : DataSet) (data : list Row) (g : Rng) :
  0 <= seq_length self -> Forall (fun d => 0 <= d) (image_shape self) ->
  next_batch'' self 0 data g = (Ok ([], []), g) /\
  gen_next'' (GenRunning self 0 data) g = (Ok ([], []), GenRunning self 0 data, g).
Proof.
  intros Hseq Hshape.
  assert (H : next_batch'' self 0 data g = (Ok ([], []), g)).
  { unfold next_batch.
    destruct (np_zeros_cases (0 :: seq_length self :: image_shape self)) as [[-> _]|H].
    2:{ unfold np_zeros in H. rewrite bool_decide_true in H; [done |].
        by repeat constructor. }
    destruct (np_zeros_cases [0; len (classes self)]) as [[-> _]|H].
    2:{ unfold np_zeros in H. rewrite bool_decide_true in H; [done |].
        repeat constructor; [done | apply len_nonneg]. }
    cbn [mbind result_bind]. unfold random_sample.
    pose proof (len_nonneg data).
    destruct (Z.ltb_spec (len data) 0); [lia |]. done. }
  split; [done |]. cbn [gen_next]. unfold run_iteration. by rewrite H.
Qed.

(** A negative batch size or a negative [seq_length] makes [np.zeros] raise
    [ValueError] before anything is drawn. *)
Theorem next_batch_negative_dimension (self : DataSet) (batch_size : Z)
    (data : list Row) (g : Rng) :
  batch_size < 0 \/ seq_length self < 0 ->
  next_batch'' self batch_size data g = (Err ValueError, g).
Proof.
  intros Hneg. unfold next_batch.
  destruct (np_zeros_cases (batch_size :: seq_length self :: image_shape self))
    as [[_ Hpos]| ->]; [| done].
  apply Forall_cons in Hpos as [H1 [H2 _]%Forall_cons]. lia.
Qed.

(** Once a call has raised, the generator is finished: every later call
    raises [StopIteration]. *)
Theorem generator_finished_after_error (gen gen' : Generator) (g g' : Rng) (e : PyError) :
  gen_next'' gen g = (Err e, gen', g') ->
  gen' = GenDone /\
  forall g2, gen_next'' gen' g2 = (Err StopIteration, GenDone, g2).
Proof.
  intros H.
  assert (Hrun : forall self bs data,
            run_iteration glob Image process_image Rng getrandbits self bs data g
              = (Err e, gen', g') -> gen' = GenDone).
  { intros self bs data. unfold run_iteration.
    destruct (next_batch'' self bs data g) as [[b|e'] g1]; [done | by intros [= _ <- _]]. }
  assert (gen' = GenDone) as ->; [| done].
  destruct gen as [self bs tt|self bs data|]; cbn [gen_next] in H.
  - destruct (select_data self tt) as [data|e']; [by eapply Hrun | by injection H as _ <- _].
  - by eapply Hrun.
  - by injection H as _ <- _.
Qed.

(** With [seq_length] 0, which the constructor accepts, the first batch of
    a positive size fails in [rescale_list] with [ZeroDivisionError]. *)
Theorem next_batch_seq_length_zero (self : DataSet) (batch_size : Z)
    (data : list Row) (g : Rng) :
  seq_length self = 0 -> Forall (fun d => 0 <= d) (image_shape self) ->
  Forall (fun x : Row => (3 <= length x)%nat) data ->
  0 < batch_size -> batch_size <= len data ->
  (next_batch'' self batch_size data g).1 = Err ZeroDivisionError.
Proof.
  intros Hseq Hshape Hrows Hpos Hle. unfold next_batch.
  destruct (np_zeros_cases (batch_size :: seq_length self :: image_shape self)) as [[-> _]|H].
  2:{ unfold np_zeros in H. rewrite bool_decide_true in H; [done |].
      repeat constructor; [lia | lia | done]. }
  destruct (np_zeros_cases [batch_size; len (classes self)]) as [[-> _]|H].
  2:{ unfold np_zeros in H. rewrite bool_decide_true in H; [done |].
      repeat constructor; [lia | apply len_nonneg]. }
  cbn [mbind result_bind].
  destruct (random_sample_spec Rng getrandbits data batch_size g)
    as (idxs & samples & Hs & Hl & _ & Hf); [lia | done |].
  destruct (random_sample Rng getrandbits data batch_size g) as [r g1].
  simpl in Hs. subst r. cbn [fst mbind result_bind].
  rewrite (comprehension_all_Err _ samples ZeroDivisionError); [done | |].
  - intros ->. apply Forall2_length in Hf. unfold len in Hl. simpl in Hf. lia.
  - intros s [k Hk]%list_elem_of_lookup.
    destruct (Forall2_lookup_r _ _ _ k _ Hf Hk) as (i & _ & Hi).
    apply list_elem_of_lookup_2 in Hi. rewrite Forall_forall in Hrows.
    destruct (get_frames_for_sample_total s (Hrows s Hi)) as [frames Hframes].
    unfold make_sample. rewrite Hframes. cbn [mbind result_bind].
    by rewrite Hseq, rescale_list_zero.
Qed.

(** A clip with fewer frame files than [seq_length] aborts the batch with
    the [AssertionError] of [rescale_list]; in particular a clip without
    any frame file does, for a positive [seq_length]. *)
Lemma make_sample_too_few_frames (self : DataSet) (sample : Row) (frames : list string) :
  get_frames_for_sample glob sample = Ok frames ->
  len frames < seq_length self ->
  make_sample'' self sample = Err AssertionError.
Proof.
  intros Hf Hlen. unfold make_sample. rewrite Hf. cbn [mbind result_bind].
  by rewrite rescale_list_short.
Qed.
End GeneratorMore.

Lemma next_batch_shape_witness :
  exists x y,
    (next_batch demo_glob string demo_image nat lcg demo_ds 2 (take 2 (data demo_ds)) 7%nat).1
      = Ok (x, y) /\
    Forall (fun xs => len xs = 3) x /\
    Forall (fun yv => len yv = 3 /\ List.filter (Z.eqb 1) yv = [1]) y.
Proof.
  destruct (next_batch demo_glob string demo_image nat lcg demo_ds 2
              (take 2 (data demo_ds)) 7%nat) as [[[x y]|e] g'] eqn:Heq.
  - exists x, y. split; [reflexivity |].
    apply (next_batch_shape demo_glob string demo_image nat lcg demo_ds 2
             (take 2 (data demo_ds)) 7%nat g' x y Heq).
  - vm_compute in Heq. discriminate Heq.
Defined.

Lemma next_batch_size_zero_witness :
  next_batch demo_glob string demo_image nat lcg demo_ds 0 [] 7%nat = (Ok ([], []), 7%nat).
Proof.
  apply (next_batch_size_zero demo_glob string demo_image nat lcg demo_ds [] 7%nat).
  - simpl. lia.
  - simpl. repeat constructor; lia.
Defined.

Lemma next_batch_negative_dimension_witness :
  next_batch demo_glob string demo_image nat lcg demo_ds (-1) (data demo_ds) 7%nat
    = (Err ValueError, 7%nat).
Proof.
  apply (next_batch_negative_dimension demo_glob string demo_image nat lcg demo_ds (-1)).
  left. lia.
Defined.

Lemma generator_finished_after_error_witness :
  gen_next demo_glob string demo_image nat lcg GenDone 9%nat
    = (Err StopIteration, GenDone, 9%nat).
Proof.
  apply (generator_finished_after_error demo_glob string demo_image nat lcg
           (GenCreated test_only_ds 1 "train") GenDone 7%nat 7%nat ValueError).
  vm_compute. reflexivity.
Defined.

Lemma next_batch_seq_length_zero_witness :
  (next_batch demo_glob string demo_image nat lcg
     (mkDataSet 0 None 300 (data demo_ds) (classes demo_ds) [2; 2]) 1
     (data demo_ds) 7%nat).1 = Err ZeroDivisionError.
Proof.
  apply (next_batch_seq_length_zero demo_glob string demo_image nat lcg
           (mkDataSet 0 None 300 (data demo_ds) (classes demo_ds) [2; 2]) 1
           (data demo_ds) 7%nat).
  - reflexivity.
  - simpl. repeat constructor; lia.
  - simpl. repeat constructor; simpl; lia.
  - lia.
  - vm_compute. discriminate.
Defined.

Lemma make_sample_too_few_frames_witness :
  make_sample demo_glob string demo_image demo_ds
    ["test"; "Bowling"; "v_Bowling_g05_c01"; "7"]%string = Err AssertionError.
Proof.
  apply (make_sample_too_few_frames demo_glob string demo_image demo_ds
           ["test"; "Bowling"; "v_Bowling_g05_c01"; "7"]%string []).
  - vm_compute. reflexivity.
  - vm_compute. reflexivity.
Defined.

(** ** The ranking: bounds on its arguments *)

Lemma build_label_predictions_app (i : nat) (labels : list string)
    (predictions extra : list Q) (d : list (string * Q)) :
  (length labels + i <= length predictions)%nat ->
  build_label_predictions (Z.of_nat i) labels (predictions ++ extra) d =
    build_label_predictions (Z.of_nat i) labels predictions d.
Proof.
  revert i d. induction labels as [|c labels IH]; intros i d Hlen; [done |].
  simpl in Hlen. cbn [build_label_predictions].
  rewrite !py_getitem_nonneg by lia. rewrite Nat2Z.id.
  rewrite lookup_app_l by lia.
  destruct (predictions !! i) as [p|]; [| done]. cbn [mbind result_bind].
  replace (Z.of_nat i + 1) with (Z.of_nat (S i)) by lia. apply IH. lia.
Qed.

Lemma build_label_predictions_total (i : nat) (labels : list string)
    (predictions : list Q) (d : list (string * Q)) :
  (length labels + i <= length predictions)%nat ->
  is_Ok (build_label_predictions (Z.of_nat i) labels predictions d).
Proof.
  revert i d. induction labels as [|c labels IH]; intros i d Hlen; [by eexists |].
  simpl in Hlen. cbn [build_label_predictions].
  rewrite py_getitem_nonneg by lia. rewrite Nat2Z.id.
  destruct (lookup_lt_is_Some_2 predictions i ltac:(lia)) as [p ->].
  cbn [mbind result_bind].
  replace (Z.of_nat i + 1) with (Z.of_nat (S i)) by lia. apply IH. lia.
Qed.

(** With the global name [data] bound to a catalog, a score vector shorter
    than the vocabulary raises [IndexError], whatever the number of entries
    asked for. *)
Theorem print_class_short_predictions (self : DataSet) (predictions : list Q) (n : Z) :
  (length predictions < length (classes self))%nat ->
  print_class_from_prediction (Some self) predictions n = Err IndexError.
Proof.
  intros Hlen. unfold print_class_from_prediction.
  pose proof (build_label_predictions_short 0 (classes self) predictions []) as H.
  change (Z.of_nat 0) with 0 in H. by rewrite H by lia.
Qed.

(** Scores beyond the length of the vocabulary are never read: appending
    scores changes neither what is reported nor, when [data] is not bound,
    the [NameError]. *)
Theorem print_class_ignores_extra_scores (data : option DataSet)
    (predictions extra : list Q) (n : Z) :
  (forall self, data = Some self -> (length (classes self) <= length predictions)%nat) ->
  print_class_from_prediction data (predictions ++ extra) n =
    print_class_from_prediction data predictions n.
Proof.
  intros Hlen. unfold print_class_from_prediction.
  destruct data as [self|]; [| done]. specialize (Hlen self eq_refl).
  pose proof (build_label_predictions_app 0 (classes self) predictions extra []) as H.
  change (Z.of_nat 0) with 0 in H. by rewrite H by lia.
Qed.

(** With the global name [data] bound to a catalog and at least as many
    scores as labels, asking for no entries, or for a negative number of
    entries, reports nothing and raises nothing. *)
Theorem print_class_nonpositive_count (self : DataSet) (predictions : list Q) (n : Z) :
  n <= 0 -> (length (classes self) <= length predictions)%nat ->
  print_class_from_prediction (Some self) predictions n = Ok [].
Proof.
  intros Hn Hlen. unfold print_class_from_prediction.
  pose proof (build_label_predictions_total 0 (classes self) predictions []) as H.
  change (Z.of_nat 0) with 0 in H. destruct H as [d ->]; [lia |].
  cbn [mbind result_bind]. f_equal.
  destruct (py_sorted by_score_desc d) as [|p l]; [done |]. cbn [print_loop].
  destruct (Z.ltb_spec (n - 1) 0); [done | lia].
Qed.

Lemma print_class_short_predictions_witness :
  print_class_from_prediction (Some (vocabulary_ds ["a"; "b"; "c"]%string)) [0.5; 0.5]%Q 5
    = Err IndexError.
Proof.
  apply (print_class_short_predictions (vocabulary_ds ["a"; "b"; "c"]%string) [0.5; 0.5]%Q 5).
  simpl. lia.
Defined.

Lemma print_class_ignores_extra_scores_witness :
  print_class_from_prediction (Some (vocabulary_ds ["a"; "b"]%string))
    ([0.2; 0.8] ++ [0.9])%Q 5 =
  print_class_from_prediction (Some (vocabulary_ds ["a"; "b"]%string)) [0.2; 0.8]%Q 5.
Proof.
  apply (print_class_ignores_extra_scores (Some (vocabulary_ds ["a"; "b"]%string))
           [0.2; 0.8]%Q [0.9]%Q 5).
  intros self [= <-]. simpl. lia.
Defined.

Lemma print_class_nonpositive_count_witness :
  print_class_from_prediction (Some (vocabulary_ds ["a"; "b"]%string)) [0.2; 0.8]%Q 0 = Ok [].
Proof.
  apply (print_class_nonpositive_count (vocabulary_ds ["a"; "b"]%string) [0.2; 0.8]%Q 0);
    [lia | simpl; lia].
Defined.

(** ** The batch generator: whole-partition batches and missing frames *)

Section GeneratorBatches.
Variable glob : string -> list string.
Variable Image : Type.
Variable process_image : string -> list Z -> result Image.
Variable Rng : Type.
Variable getrandbits : Rng -> nat * Rng.

Abbreviation next_batch''' := (next_batch glob Image process_image Rng getrandbits).
Abbreviation make_sample''' := (make_sample glob Image process_image).

(** A batch as large as the partition is built from every sample of the
    partition, each exactly once, in a random order. *)
Theorem next_batch_whole_partition (self : DataSet) (data : list Row) (g g' : Rng)
    (x : list (list Image)) (y : list (list Z)) :
  next_batch''' self (len data) data g = (Ok (x, y), g') ->
  exists samples,
    samples ≡ₚ data /\
    Forall2 (fun s xy => make_sample''' self s = Ok xy) samples (zip x y).
Proof.
  intros H.
  apply next_batch_Ok in H as (_ & _ & _ & idxs & samples & Hs & _ & _ & _ & Hm).
  destruct (random_sample_all_is_permutation Rng getrandbits data g) as (samples' & Hs' & Hp).
  exists samples. split; [| done]. congruence.
Qed.

(** When the file system has fewer than [seq_length] frames for every
    pattern (the frames were not extracted, say), every batch of a positive
    size fails with the [AssertionError] of [rescale_list]. *)
Theorem next_batch_without_frames (self : DataSet) (batch_size : Z)
    (data : list Row) (g : Rng) :
  (forall pattern, len (glob pattern) < seq_length self) ->
  Forall (fun d => 0 <= d) (image_shape self) ->
  Forall (fun x : Row => (3 <= length x)%nat) data ->
  0 < batch_size -> batch_size <= len data ->
  (next_batch''' self batch_size data g).1 = Err AssertionError.
Proof.
  intros Hglob Hshape Hrows Hpos Hle.
  assert (Hseq : 0 < seq_length self)
    by (pose proof (Hglob EmptyString); pose proof (len_nonneg (glob EmptyString)); lia).
  unfold next_batch.
  destruct (np_zeros_cases (batch_size :: seq_length self :: image_shape self)) as [[-> _]|H].
  2:{ unfold np_zeros in H. rewrite bool_decide_true in H; [done |].
      repeat constructor; [lia | lia | done]. }
  destruct (np_zeros_cases [batch_size; len (classes self)]) as [[-> _]|H].
  2:{ unfold np_zeros in H. rewrite bool_decide_true in H; [done |].
      repeat constructor; [lia | apply len_nonneg]. }
  cbn [mbind result_bind].
  destruct (random_sample_spec Rng getrandbits data batch_size g)
    as (idxs & samples & Hs & Hl & _ & Hf); [lia | done |].
  destruct (random_sample Rng getrandbits data batch_size g) as [r g1].
  simpl in Hs. subst r. cbn [fst mbind result_bind].
  rewrite (comprehension_all_Err _ samples AssertionError); [done | |].
  - intros ->. apply Forall2_length in Hf. unfold len in Hl. simpl in Hf. lia.
  - intros s [k Hk]%list_elem_of_lookup.
    destruct (Forall2_lookup_r _ _ _ k _ Hf Hk) as (i & _ & Hi).
    apply list_elem_of_lookup_2 in Hi. rewrite Forall_forall in Hrows.
    destruct (get_frames_for_sample_total glob s (Hrows s Hi)) as [frames Hframes].
    apply (make_sample_too_few_frames glob Image process_image self s frames Hframes).
    unfold get_frames_for_sample in Hframes. inv_bind Hframes. subst frames.
    unfold len. rewrite py_sorted_Permutation. apply Hglob.
Qed.
End GeneratorBatches.

Lemma next_batch_whole_partition_witness :
  exists x y samples,
    (next_batch demo_glob string demo_image nat lcg demo_ds 2 (take 2 (data demo_ds)) 7%nat).1
      = Ok (x, y) /\
    samples ≡ₚ take 2 (data demo_ds).
Proof.
  destruct (next_batch demo_glob string demo_image nat lcg demo_ds 2
              (take 2 (data demo_ds)) 7%nat) as [[[x y]|e] g'] eqn:Heq.
  - destruct (next_batch_whole_partition demo_glob string demo_image nat lcg demo_ds
                (take 2 (data demo_ds)) 7%nat g' x y Heq) as (samples & Hp & _).
    exists x, y, samples. split; [reflexivity | exact Hp].
  - vm_compute in Heq. discriminate Heq.
Defined.

Lemma next_batch_without_frames_witness :
  (next_batch (fun _ => []) string demo_image nat lcg demo_ds 2 (data demo_ds) 7%nat).1
    = Err AssertionError.
Proof.
  apply (next_batch_without_frames (fun _ => []) string demo_image nat lcg demo_ds 2
           (data demo_ds) 7%nat).
  - intros pattern. vm_compute. reflexivity.
  - simpl. repeat constructor; lia.
  - simpl. repeat constructor; simpl; lia.
  - lia.
  - vm_compute. discriminate.
Defined.
